(** * webgl-operate: environment rendering pass and eye-tracking demo renderer

    A shallow embedding of
      - source/environmentrenderingpass.ts  (class EnvironmentRenderingPass)
      - demos/eye-tracking/eyetracking.ts   (class EyeTrackingRenderer)

    Both classes are straight-line sequences of calls into the webgl-operate
    toolkit and the WebGL context.  A method is embedded as a computation over
    the fields of its object that either returns or throws, and that records,
    in program order, every call it makes into the toolkit, the WebGL context
    and the console. *)

From Stdlib Require Import String List ZArith Bool Lia.
From ExtLib Require Import Structures.Monad.
Import ListNotations.
Import MonadNotation.

Local Open Scope string_scope.
Local Open Scope monad_scope.

(** ** Toolkit objects

    The toolkit classes (Program, Shader, Texture2D, TextureCube,
    NdcFillingTriangle, CuboidGeometry, DefaultFramebuffer, Camera) live
    outside the two files.  An object is represented by what the two files
    hand to its constructor or read from it. *)

(** The two texture classes told apart by [instanceof]. *)
Inductive TextureClass : Type :=
| Texture2D
| TextureCube.

Record Texture : Type := mkTexture {
  texture_class : TextureClass;
  texture_identifier : string
}.

Record Program : Type := mkProgram {
  program_identifier : string
}.

Record Shader : Type := mkShader {
  shader_type : Z;
  shader_identifier : string
}.

(** A geometry exposes the attribute location its vertices are wired to. *)
Record Geometry : Type := mkGeometry {
  geometry_identifier : string;
  vertexLocation : Z
}.

Record Framebuffer : Type := mkFramebuffer {
  framebuffer_identifier : string
}.

(** A gl-matrix [mat4].  Neither file inspects the entries, they are handed
    to [gl.uniformMatrix4fv] as they are; the entries are kept as raw bit
    patterns. *)
Definition mat4 : Type := list Z.

(** The two matrices the files read from a camera. *)
Record Camera : Type := mkCamera {
  viewProjection : mat4;
  viewProjectionInverse : mat4
}.

(** [program.uniform(name)]: the location of a uniform of a program. *)
Record UniformLocation : Type := mkUniformLocation {
  uniform_program : Program;
  uniform_name : string
}.

Definition uniform (p : Program) (name : string) : UniformLocation :=
  mkUniformLocation p name.

(** ** WebGL constants *)

Definition VERTEX_SHADER : Z := 35633.       (* 0x8B31 *)
Definition FRAGMENT_SHADER : Z := 35632.     (* 0x8B30 *)
Definition RGB : Z := 6407.                  (* 0x1907 *)
Definition COLOR_BUFFER_BIT : Z := 16384.    (* 0x4000 *)
Definition DEPTH_BUFFER_BIT : Z := 256.      (* 0x0100 *)

Inductive TextureUnit : Type :=
| TEXTURE0
| TEXTURE1.

Inductive Capability : Type :=
| CULL_FACE
| DEPTH_TEST.

Inductive CullFaceMode : Type :=
| BACK.

(** ** Calls

    Every call the two files make on a toolkit object, on the WebGL context
    or on the console.  An optional argument left out at the call site is
    [None].  Where the toolkit signals the success of a step (shader creation
    and compilation, program creation and linking), the call carries the
    outcome the toolkit signalled as its last argument [ok]. *)
Inductive Call : Type :=
(* geometries *)
| GeometryInitialize (g : Geometry)
| GeometryBind (g : Geometry)
| GeometryDraw (g : Geometry)
| GeometryUnbind (g : Geometry)
| GeometryUninitialize (g : Geometry)
(* textures *)
| Texture2DInitialize (t : Texture) (width height internalFormat format type : Z)
| TextureCubeInitialize (t : Texture) (size internalFormat format type : Z)
| TextureBind (t : Texture) (u : TextureUnit)
| TextureUninitialize (t : Texture)
(* shaders *)
| ShaderInitialize (s : Shader) (source : string) (compile : option bool) (ok : bool)
| ShaderReplace (s : Shader) (searchValue replaceValue : string)
| ShaderCompile (s : Shader) (ok : bool)
| ShaderUninitialize (s : Shader)
(* programs *)
| ProgramInitialize (p : Program) (shaders : list Shader) (link : bool) (ok : bool)
| ProgramAttribute (p : Program) (name : string) (location : Z)
| ProgramLink (p : Program) (ok : bool)
| ProgramBind (p : Program)
| ProgramUnbind (p : Program)
| ProgramUninitialize (p : Program)
(* framebuffers *)
| FramebufferInitialize (f : Framebuffer)
| FramebufferBind (f : Framebuffer)
| FramebufferClear (f : Framebuffer) (mask : Z) (bind unbind : bool)
| FramebufferUninitialize (f : Framebuffer)
(* the WebGL context *)
| Uniform1i (location : UniformLocation) (v : Z)
| Uniform1iv (location : UniformLocation) (v : list Z)
| UniformMatrix4fv (location : UniformLocation) (transpose : bool) (m : mat4)
| Viewport (x y width height : Z)
| Enable (cap : Capability)
| Disable (cap : Capability)
| CullFace (mode : CullFaceMode)
(* the console *)
| ConsoleLog (message : string).

(** ** Methods as computations

    A method runs on the fields [S] of its object.  It either returns a value
    or throws, and in both cases leaves the fields as they are at that point
    together with the calls made so far, oldest first. *)
Inductive Outcome (S A : Type) : Type :=
| Returns (a : A) (s : S) (calls : list Call)
| Throws (message : string) (s : S) (calls : list Call).

Arguments Returns {S A} a s calls.
Arguments Throws {S A} message s calls.

Definition M (S A : Type) : Type := S -> Outcome S A.

Definition M_ret {S A : Type} (a : A) : M S A :=
  fun s => Returns a s [].

Definition M_bind {S A B : Type} (m : M S A) (k : A -> M S B) : M S B :=
  fun s =>
    match m s with
    | Returns a s1 c1 =>
        match k a s1 with
        | Returns b s2 c2 => Returns b s2 (c1 ++ c2)
        | Throws msg s2 c2 => Throws msg s2 (c1 ++ c2)
        end
    | Throws msg s1 c1 => Throws msg s1 c1
    end.

#[export] Instance Monad_M {S : Type} : Monad (M S) :=
  {| ret := @M_ret S; bind := @M_bind S |}.

(** Read the fields ([this]). *)
Definition this {S : Type} : M S S :=
  fun s => Returns s s [].

(** Assign to the fields. *)
Definition assign {S : Type} (f : S -> S) : M S unit :=
  fun s => Returns tt (f s) [].

(** Make one call. *)
Definition call {S : Type} (c : Call) : M S unit :=
  fun s => Returns tt s [c].

Definition throw {S A : Type} (message : string) : M S A :=
  fun s => Throws message s [].

(** Modelled from the spec: [assert] of ./auxiliaries, which is not among the
    two files.  The spec calls a failed assertion a fatal precondition
    violation, not a recoverable error: a true expression lets the method go
    on, a false one ends it there with the message. *)
Definition assert {S : Type} (expression : bool) (message : string) : M S unit :=
  if expression then ret tt else throw message.

(** The pieces of an outcome. *)
Definition calls_of {S A : Type} (o : Outcome S A) : list Call :=
  match o with
  | Returns _ _ c => c
  | Throws _ _ c => c
  end.

Definition fields_of {S A : Type} (o : Outcome S A) : S :=
  match o with
  | Returns _ s _ => s
  | Throws _ s _ => s
  end.

Definition returned {S A : Type} (o : Outcome S A) : option A :=
  match o with
  | Returns a _ _ => Some a
  | Throws _ _ _ => None
  end.

Definition is_draw (c : Call) : bool :=
  match c with
  | GeometryDraw _ => true
  | _ => false
  end.

Definition is_program_bind (c : Call) : bool :=
  match c with
  | ProgramBind _ => true
  | _ => false
  end.

(** Number of calls of a trace that satisfy a test. *)
Definition count (f : Call -> bool) (l : list Call) : nat :=
  length (filter f l).

(** ** Capabilities of the WebGL context

    [gl.enable(cap)] and [gl.disable(cap)] switch a capability of the context
    on and off, and it stays so until the next such call; [gl.isEnabled(cap)]
    reads it.  No call on a toolkit object that the two files make is taken
    to switch a capability. *)
Record Capabilities : Type := mkCapabilities {
  cull_face : bool;
  depth_test : bool
}.

(** A fresh context has both capabilities off. *)
Definition fresh_context : Capabilities :=
  mkCapabilities false false.

Definition isEnabled (g : Capabilities) (cap : Capability) : bool :=
  match cap with
  | CULL_FACE => cull_face g
  | DEPTH_TEST => depth_test g
  end.

Definition switch (g : Capabilities) (cap : Capability) (on : bool) : Capabilities :=
  match cap with
  | CULL_FACE => mkCapabilities on (depth_test g)
  | DEPTH_TEST => mkCapabilities (cull_face g) on
  end.

Definition context_step (g : Capabilities) (c : Call) : Capabilities :=
  match c with
  | Enable cap => switch g cap true
  | Disable cap => switch g cap false
  | _ => g
  end.

Definition context_after (calls : list Call) (g : Capabilities) : Capabilities :=
  fold_left context_step calls g.

Definition Capability_eqb (a b : Capability) : bool :=
  match a, b with
  | CULL_FACE, CULL_FACE => true
  | DEPTH_TEST, DEPTH_TEST => true
  | _, _ => false
  end.

Definition is_disable (cap : Capability) (c : Call) : bool :=
  match c with
  | Disable cap' => Capability_eqb cap cap'
  | _ => false
  end.

(** Every [gl.enable] of a trace is followed, later in the trace, by a
    [gl.disable] of the same capability. *)
Fixpoint enables_matched (calls : list Call) : bool :=
  match calls with
  | [] => true
  | Enable cap :: rest => existsb (is_disable cap) rest && enables_matched rest
  | _ :: rest => enables_matched rest
  end.

(** ** Resources held

    A toolkit object holds its GPU resource from its [initialize] to its
    [uninitialize]. *)
Inductive Resource : Type :=
| RGeometry (g : Geometry)
| RTexture (t : Texture)
| RShader (s : Shader)
| RProgram (p : Program)
| RFramebuffer (f : Framebuffer).

Definition acquires (c : Call) : option Resource :=
  match c with
  | GeometryInitialize g => Some (RGeometry g)
  | Texture2DInitialize t _ _ _ _ _ => Some (RTexture t)
  | TextureCubeInitialize t _ _ _ _ => Some (RTexture t)
  | ShaderInitialize s _ _ _ => Some (RShader s)
  | ProgramInitialize p _ _ _ => Some (RProgram p)
  | FramebufferInitialize f => Some (RFramebuffer f)
  | _ => None
  end.

Definition releases (c : Call) : option Resource :=
  match c with
  | GeometryUninitialize g => Some (RGeometry g)
  | TextureUninitialize t => Some (RTexture t)
  | ShaderUninitialize s => Some (RShader s)
  | ProgramUninitialize p => Some (RProgram p)
  | FramebufferUninitialize f => Some (RFramebuffer f)
  | _ => None
  end.

Definition Resource_eq_dec (a b : Resource) : {a = b} + {a <> b}.
Proof.
  repeat decide equality.
Defined.

Definition ledger_step (held : list Resource) (c : Call) : list Resource :=
  match acquires c, releases c with
  | Some r, _ => r :: held
  | None, Some r => remove Resource_eq_dec r held
  | None, None => held
  end.

(** The resources held after a trace, starting from [held]. *)
Definition held_from (held : list Resource) (calls : list Call) : list Resource :=
  fold_left ledger_step calls held.

Definition held_after (calls : list Call) : list Resource :=
  held_from [] calls.

(** A call that releases nothing, or a program. *)
Definition releases_at_most_a_program (c : Call) : bool :=
  match releases c with
  | None => true
  | Some (RProgram _) => true
  | Some _ => false
  end.

(** * EnvironmentRenderingPass *)
Module EnvironmentRenderingPass.

(** [enum EnvironmentTextureType]. *)
Inductive EnvironmentTextureType : Type :=
| CubeMap              (* = 0 *)
| EquirectangularMap   (* = 1 *)
| SphereMap            (* = 2 *)
| PolarMap.            (* = 3 *)

Definition enum_value (t : EnvironmentTextureType) : Z :=
  match t with
  | CubeMap => 0
  | EquirectangularMap => 1
  | SphereMap => 2
  | PolarMap => 3
  end.

(** The fields of the class.  A field the constructor leaves unassigned reads
    [undefined], here [None].  [_environmentTexture2] is declared [Texture2D],
    but [frame] tests its class at run time, so the field holds a texture of
    either class. *)
Record Pass : Type := mkPass {
  _environmentTexture : option Texture;
  _environmentTexture2 : option Texture;
  _environmenTextureType : option EnvironmentTextureType;
  _camera : option Camera;
  _cubeMapProgram : Program;
  _equiMapProgram : Program;
  _sphereMapProgram : Program;
  _polarMapProgram : Program;
  _ndcTriangle : Geometry;
  _emptyTexture : Texture;
  _emptyCubemap : Texture
}.

(** The attribute location of the screen-filling triangle is fixed by the
    toolkit; the constructor receives it with the context. *)
Definition constructor (ndcVertexLocation : Z) : Pass :=
  {| _environmentTexture := None;
     _environmentTexture2 := None;
     _environmenTextureType := None;
     _camera := None;
     _cubeMapProgram := mkProgram "CubemapEnvironmentProgram";
     _equiMapProgram := mkProgram "EquimapEnvironmentProgram";
     _polarMapProgram := mkProgram "PolarmapEnvironmentProgram";
     _sphereMapProgram := mkProgram "SpheremapEnvironmentProgram";
     _ndcTriangle := mkGeometry "EnvironmentNdcTriangle" ndcVertexLocation;
     _emptyTexture := mkTexture Texture2D "EmptyTexture";
     _emptyCubemap := mkTexture TextureCube "EmptyCube" |}.

(** [field === EnvironmentTextureType.X]; [undefined] equals no enum value. *)
Definition strict_equal (field : option EnvironmentTextureType)
  (v : EnvironmentTextureType) : bool :=
  match field with
  | Some t => Z.eqb (enum_value t) (enum_value v)
  | None => false
  end.

(** [x !== undefined]. *)
Definition defined {A : Type} (x : option A) : bool :=
  match x with
  | Some _ => true
  | None => false
  end.

(** [x instanceof C]; [undefined] is an instance of no class. *)
Definition instanceof (x : option Texture) (c : TextureClass) : bool :=
  match x, c with
  | Some {| texture_class := Texture2D |}, Texture2D => true
  | Some {| texture_class := TextureCube |}, TextureCube => true
  | _, _ => false
  end.

(** [texture!.bind(unit)]: a method call on [undefined] is a TypeError. *)
Definition texture_bind (texture : option Texture) (u : TextureUnit) : M Pass unit :=
  match texture with
  | Some t => call (TextureBind t u)
  | None => throw "TypeError: Cannot read properties of undefined (reading 'bind')"
  end.

(** [camera!.viewProjectionInverse]. *)
Definition camera_viewProjectionInverse (camera : option Camera) : M Pass mat4 :=
  match camera with
  | Some c => ret (viewProjectionInverse c)
  | None =>
      throw "TypeError: Cannot read properties of undefined (reading 'viewProjectionInverse')"
  end.

Definition frame : M Pass unit :=
  p <- this ;;
  assert (defined (_camera p)) "Camera is undefined in environment rendering pass." ;;
  assert (defined (_environmentTexture p))
    "Environment texture is undefined in environment rendering pass." ;;
  program <-
    (if strict_equal (_environmenTextureType p) EquirectangularMap then
       assert (instanceof (_environmentTexture p) Texture2D)
         "Input texture expected to be Texture2D for equirectangular mapping." ;;
       texture_bind (_environmentTexture p) TEXTURE0 ;;
       ret (_equiMapProgram p)
     else if strict_equal (_environmenTextureType p) SphereMap then
       assert (instanceof (_environmentTexture p) Texture2D)
         "Input texture expected to be Texture2D for sphere mapping." ;;
       texture_bind (_environmentTexture p) TEXTURE0 ;;
       ret (_sphereMapProgram p)
     else if strict_equal (_environmenTextureType p) CubeMap then
       assert (instanceof (_environmentTexture p) TextureCube)
         "Input texture expected to be a TextureCube for cube mapping." ;;
       texture_bind (_environmentTexture p) TEXTURE0 ;;
       ret (_cubeMapProgram p)
     else if strict_equal (_environmenTextureType p) PolarMap then
       assert (defined (_environmentTexture2 p))
         "Two input textures expected for polar mapping." ;;
       assert (instanceof (_environmentTexture p) Texture2D)
         "Input texture expected to be a Texture2D for polar mapping." ;;
       assert (instanceof (_environmentTexture2 p) Texture2D)
         "Input texture expected to be a Texture2D for polar mapping." ;;
       texture_bind (_environmentTexture p) TEXTURE0 ;;
       texture_bind (_environmentTexture2 p) TEXTURE1 ;;
       ret (_polarMapProgram p)
     else
       ret (_cubeMapProgram p)) ;;
  call (ProgramBind program) ;;
  m <- camera_viewProjectionInverse (_camera p) ;;
  call (UniformMatrix4fv (uniform program "u_viewProjectionInverse") false m) ;;
  call (GeometryBind (_ndcTriangle p)) ;;
  call (GeometryDraw (_ndcTriangle p)) ;;
  call (ProgramUnbind program).

(** [Wizard.Precision], the member [initialize] uses. *)
Inductive Precision : Type :=
| byte.

(** A step of [initialize] whose success the toolkit signals. *)
Inductive Step : Type :=
| CreateShader (s : Shader)
| CompileShader (s : Shader) (projection : string)
| CreateProgram (p : Program)
| LinkProgram (p : Program).

(** What [initialize] obtains from outside the class: the answer of
    [Wizard.queryInternalTextureFormat], the two shader sources behind
    [require], and, for every step, the success the toolkit signals. *)
Record Toolkit : Type := mkToolkit {
  queryInternalTextureFormat : Z -> Precision -> Z * Z;
  env_projections_vert : string;
  env_projections_frag : string;
  succeeds : Step -> bool
}.

(** The body of [initialize], lines 53 to 112.  The decorator of line 52 is
    applied to it in [initialize_member] below. *)
Definition initialize (tk : Toolkit) : M Pass bool :=
  p <- this ;;
  call (GeometryInitialize (_ndcTriangle p)) ;;
  let internalFormatAndType := queryInternalTextureFormat tk RGB byte in
  call (Texture2DInitialize (_emptyTexture p) 1 1
          (fst internalFormatAndType) RGB (snd internalFormatAndType)) ;;
  call (TextureCubeInitialize (_emptyCubemap p) 1
          (fst internalFormatAndType) RGB (snd internalFormatAndType)) ;;
  (* Compile a program for each projection type. *)
  let vert := mkShader VERTEX_SHADER "glyph.vert" in
  call (ShaderInitialize vert (env_projections_vert tk) None
          (succeeds tk (CreateShader vert))) ;;
  let frag := mkShader FRAGMENT_SHADER "glyph.frag" in
  call (ShaderInitialize frag (env_projections_frag tk) (Some false)
          (succeeds tk (CreateShader frag))) ;;

  call (ShaderReplace frag "PROJECTION_TYPE" "CUBE_MAP") ;;
  call (ShaderCompile frag (succeeds tk (CompileShader frag "CUBE_MAP"))) ;;

  call (ProgramInitialize (_cubeMapProgram p) [vert; frag] false
          (succeeds tk (CreateProgram (_cubeMapProgram p)))) ;;
  call (ProgramAttribute (_cubeMapProgram p) "a_vertex" (vertexLocation (_ndcTriangle p))) ;;
  call (ProgramLink (_cubeMapProgram p) (succeeds tk (LinkProgram (_cubeMapProgram p)))) ;;
  call (ProgramBind (_cubeMapProgram p)) ;;
  call (Uniform1i (uniform (_cubeMapProgram p) "u_cubemap") 0) ;;
  call (ProgramUnbind (_cubeMapProgram p)) ;;

  call (ShaderReplace frag "PROJECTION_TYPE" "EQUI_MAP") ;;
  call (ShaderCompile frag (succeeds tk (CompileShader frag "EQUI_MAP"))) ;;

  call (ProgramInitialize (_equiMapProgram p) [vert; frag] false
          (succeeds tk (CreateProgram (_equiMapProgram p)))) ;;
  call (ProgramAttribute (_equiMapProgram p) "a_vertex" (vertexLocation (_ndcTriangle p))) ;;
  call (ProgramLink (_equiMapProgram p) (succeeds tk (LinkProgram (_equiMapProgram p)))) ;;
  call (ProgramBind (_equiMapProgram p)) ;;
  call (Uniform1i (uniform (_equiMapProgram p) "u_equirectmap") 0) ;;
  call (ProgramUnbind (_equiMapProgram p)) ;;

  call (ShaderReplace frag "PROJECTION_TYPE" "SPHERE_MAP") ;;
  call (ShaderCompile frag (succeeds tk (CompileShader frag "SPHERE_MAP"))) ;;

  call (ProgramInitialize (_sphereMapProgram p) [vert; frag] false
          (succeeds tk (CreateProgram (_sphereMapProgram p)))) ;;
  call (ProgramAttribute (_sphereMapProgram p) "a_vertex" (vertexLocation (_ndcTriangle p))) ;;
  call (ProgramLink (_sphereMapProgram p) (succeeds tk (LinkProgram (_sphereMapProgram p)))) ;;
  call (ProgramBind (_sphereMapProgram p)) ;;
  call (Uniform1i (uniform (_sphereMapProgram p) "u_spheremap") 0) ;;
  call (ProgramUnbind (_sphereMapProgram p)) ;;

  call (ShaderReplace frag "PROJECTION_TYPE" "POLAR_MAP") ;;
  call (ShaderCompile frag (succeeds tk (CompileShader frag "POLAR_MAP"))) ;;

  call (ProgramInitialize (_polarMapProgram p) [vert; frag] false
          (succeeds tk (CreateProgram (_polarMapProgram p)))) ;;
  call (ProgramAttribute (_polarMapProgram p) "a_vertex" (vertexLocation (_ndcTriangle p))) ;;
  call (ProgramLink (_polarMapProgram p) (succeeds tk (LinkProgram (_polarMapProgram p)))) ;;
  call (ProgramBind (_polarMapProgram p)) ;;
  call (Uniform1iv (uniform (_polarMapProgram p) "u_polarmap") [0; 1]%Z) ;;
  call (ProgramUnbind (_polarMapProgram p)) ;;

  ret true.

(** The body of [uninitialize], lines 115 to 120.  The decorator of line 114
    is applied to it in [uninitialize_member] below. *)
Definition uninitialize : M Pass unit :=
  p <- this ;;
  call (ProgramUninitialize (_cubeMapProgram p)) ;;
  call (ProgramUninitialize (_equiMapProgram p)) ;;
  call (ProgramUninitialize (_sphereMapProgram p)) ;;
  call (ProgramUninitialize (_polarMapProgram p)).

(** Modelled from the spec: the decorators [@Initializable.initialize()] and
    [@Initializable.uninitialize()] of lines 52 and 114.  They belong to the
    base class [Initializable], which is not among the two files.  The spec
    has [initialize()] return the success or failure its body returns and
    names no effect of a decorator on the pass; whether a decorator lets the
    body run at all it decides on state the base class keeps.  That decision
    is taken as it falls: [Some message] when the decorator refuses the call
    and throws, [None] when it lets the body run and hands its result on. *)
Definition decorated {A : Type} (verdict : option string) (body : M Pass A) : M Pass A :=
  match verdict with
  | Some message => throw message
  | None => body
  end.

(** A call into the toolkit can throw as well, the toolkit having guards of
    its own, and neither body catches anything: the member ends in that call.
    A body that assigns no field and makes its calls one after the other, as
    these two do, has then made its calls up to and with that one and left the
    fields as they were.  [Some (k, message)] has the call of index [k] throw,
    if the body gets that far; [None] has no call throw. *)
Definition thrown_in_call {A : Type} (fault : option (nat * string)) (body : M Pass A) :
  M Pass A :=
  fun p =>
    match fault with
    | None => body p
    | Some (k, message) =>
        if Nat.ltb k (length (calls_of (body p)))
        then Throws message p (firstn (S k) (calls_of (body p)))
        else body p
    end.

(** [initialize()] and [uninitialize()] as a host calls them: the decorator
    first, then the body, any of whose calls may throw. *)
Definition initialize_member (verdict : option string) (fault : option (nat * string))
  (tk : Toolkit) : M Pass bool :=
  decorated verdict (thrown_in_call fault (initialize tk)).

Definition uninitialize_member (verdict : option string) (fault : option (nat * string)) :
  M Pass unit :=
  decorated verdict (thrown_in_call fault uninitialize).

Definition update : M Pass unit :=
  ret tt.

(** The four setters. *)
Definition set_environmentTextureType (type : EnvironmentTextureType) : M Pass unit :=
  assign (fun p =>
    {| _environmentTexture := _environmentTexture p;
       _environmentTexture2 := _environmentTexture2 p;
       _environmenTextureType := Some type;
       _camera := _camera p;
       _cubeMapProgram := _cubeMapProgram p;
       _equiMapProgram := _equiMapProgram p;
       _sphereMapProgram := _sphereMapProgram p;
       _polarMapProgram := _polarMapProgram p;
       _ndcTriangle := _ndcTriangle p;
       _emptyTexture := _emptyTexture p;
       _emptyCubemap := _emptyCubemap p |}).

Definition set_environmentTexture (texture : Texture) : M Pass unit :=
  assign (fun p =>
    {| _environmentTexture := Some texture;
       _environmentTexture2 := _environmentTexture2 p;
       _environmenTextureType := _environmenTextureType p;
       _camera := _camera p;
       _cubeMapProgram := _cubeMapProgram p;
       _equiMapProgram := _equiMapProgram p;
       _sphereMapProgram := _sphereMapProgram p;
       _polarMapProgram := _polarMapProgram p;
       _ndcTriangle := _ndcTriangle p;
       _emptyTexture := _emptyTexture p;
       _emptyCubemap := _emptyCubemap p |}).

Definition set_environmentTexture2 (texture : Texture) : M Pass unit :=
  assign (fun p =>
    {| _environmentTexture := _environmentTexture p;
       _environmentTexture2 := Some texture;
       _environmenTextureType := _environmenTextureType p;
       _camera := _camera p;
       _cubeMapProgram := _cubeMapProgram p;
       _equiMapProgram := _equiMapProgram p;
       _sphereMapProgram := _sphereMapProgram p;
       _polarMapProgram := _polarMapProgram p;
       _ndcTriangle := _ndcTriangle p;
       _emptyTexture := _emptyTexture p;
       _emptyCubemap := _emptyCubemap p |}).

Definition set_camera (camera : Camera) : M Pass unit :=
  assign (fun p =>
    {| _environmentTexture := _environmentTexture p;
       _environmentTexture2 := _environmentTexture2 p;
       _environmenTextureType := _environmenTextureType p;
       _camera := Some camera;
       _cubeMapProgram := _cubeMapProgram p;
       _equiMapProgram := _equiMapProgram p;
       _sphereMapProgram := _sphereMapProgram p;
       _polarMapProgram := _polarMapProgram p;
       _ndcTriangle := _ndcTriangle p;
       _emptyTexture := _emptyTexture p;
       _emptyCubemap := _emptyCubemap p |}).

(** ** The pass driven from outside

    The public members a host can invoke, and a run of the pass under any
    sequence of invocations.  A host may catch what a member throws and go
    on, so a run continues from the fields the failed member left. *)
Inductive Member : Type :=
| Initialize (tk : Toolkit)
| Uninitialize
| Update
| Frame
| SetEnvironmentTextureType (type : EnvironmentTextureType)
| SetEnvironmentTexture (texture : Texture)
| SetEnvironmentTexture2 (texture : Texture)
| SetCamera (camera : Camera).

Definition invoke (m : Member) : M Pass unit :=
  match m with
  | Initialize tk => _ <- initialize tk ;; ret tt
  | Uninitialize => uninitialize
  | Update => update
  | Frame => frame
  | SetEnvironmentTextureType type => set_environmentTextureType type
  | SetEnvironmentTexture texture => set_environmentTexture texture
  | SetEnvironmentTexture2 texture => set_environmentTexture2 texture
  | SetCamera camera => set_camera camera
  end.

Fixpoint run (ms : list Member) (p : Pass) : Pass * list Call :=
  match ms with
  | [] => (p, [])
  | m :: rest =>
      let o := invoke m p in
      let (p', calls) := run rest (fields_of o) in
      (p', (calls_of o ++ calls)%list)
  end.

End EnvironmentRenderingPass.

(** * EyeTrackingRenderer *)
Module EyeTrackingRenderer.

(** [EyeTrackingStatusMessage] of the toolkit: the two members the renderer
    names, and the remaining ones by their value. *)
Inductive EyeTrackingStatusMessage : Type :=
| NewServerMessage
| BinaryMessageTooSmall
| OtherStatusMessage (value : Z).

(** [EyeTrackingData] of the toolkit, by what the renderer reads of it. *)
Record EyeTrackingData : Type := mkEyeTrackingData {
  toString : string
}.

(** What the renderer reads of the data stream object.  The object belongs
    to the toolkit, which updates it before it notifies its subscribers. *)
Record EyeTrackerDataStream : Type := mkEyeTrackerDataStream {
  eyeTrackingData : EyeTrackingData;
  statusMessage : EyeTrackingStatusMessage;
  serverMessage : string
}.

(** The fields [onFrame] and the two callbacks work on. *)
Record Renderer : Type := mkRenderer {
  _frameSize : Z * Z;
  _camera : Camera;
  _cuboid : Geometry;
  _program : Program;
  _uViewProjection : UniformLocation;
  _defaultFBO : Framebuffer;
  _eyeTrackerDataStream : EyeTrackerDataStream
}.

(** [gl.GL_FALSE] is no member of the WebGL context and reads [undefined],
    which the context takes as [false]. *)
Definition GL_FALSE : bool := false.

Definition onFrame : M Renderer unit :=
  r <- this ;;
  call (FramebufferBind (_defaultFBO r)) ;;
  call (FramebufferClear (_defaultFBO r)
          (Z.lor COLOR_BUFFER_BIT DEPTH_BUFFER_BIT) true false) ;;

  call (Viewport 0 0 (fst (_frameSize r)) (snd (_frameSize r))) ;;

  call (Enable CULL_FACE) ;;
  call (CullFace BACK) ;;
  call (Enable DEPTH_TEST) ;;

  call (ProgramBind (_program r)) ;;
  call (UniformMatrix4fv (_uViewProjection r) GL_FALSE (viewProjection (_camera r))) ;;

  call (GeometryBind (_cuboid r)) ;;
  call (GeometryDraw (_cuboid r)) ;;
  call (GeometryUnbind (_cuboid r)) ;;

  call (ProgramUnbind (_program r)) ;;

  call (CullFace BACK) ;;
  call (Disable CULL_FACE).

(** The closure [onInitialize] hands to [onDataUpdate]. *)
Definition onDataUpdate_callback : M Renderer unit :=
  r <- this ;;
  call (ConsoleLog (toString (eyeTrackingData (_eyeTrackerDataStream r)))).

(** The closure [onInitialize] hands to [onStatusUpdate]. *)
Definition onStatusUpdate_callback : M Renderer unit :=
  r <- this ;;
  match statusMessage (_eyeTrackerDataStream r) with
  | NewServerMessage =>
      call (ConsoleLog (serverMessage (_eyeTrackerDataStream r)))
  | BinaryMessageTooSmall =>
      call (ConsoleLog "Received stream from server with not enough bytes.")
  | _ =>
      call (ConsoleLog "Eye-Tracking data stream in invalid state.")
  end.

(** ** The renderer between the render loop and the data stream

    What can reach the renderer once it is initialized: the render loop asks
    for a frame, or the data stream, having updated its object, notifies one
    of the two subscribers. *)
Inductive Arrival : Type :=
| FrameRequested
| DataUpdated (stream : EyeTrackerDataStream)
| StatusUpdated (stream : EyeTrackerDataStream).

(** The toolkit's update of the data stream object, seen from the renderer:
    its field refers to the updated object. *)
Definition stream_updated (stream : EyeTrackerDataStream) (r : Renderer) : Renderer :=
  {| _frameSize := _frameSize r;
     _camera := _camera r;
     _cuboid := _cuboid r;
     _program := _program r;
     _uViewProjection := _uViewProjection r;
     _defaultFBO := _defaultFBO r;
     _eyeTrackerDataStream := stream |}.

Definition arrive (a : Arrival) (r : Renderer) : Outcome Renderer unit :=
  match a with
  | FrameRequested => onFrame r
  | DataUpdated stream => onDataUpdate_callback (stream_updated stream r)
  | StatusUpdated stream => onStatusUpdate_callback (stream_updated stream r)
  end.

Fixpoint run (arrivals : list Arrival) (r : Renderer) : Renderer * list Call :=
  match arrivals with
  | [] => (r, [])
  | a :: rest =>
      let o := arrive a r in
      let (r', calls) := run rest (fields_of o) in
      (r', (calls_of o ++ calls)%list)
  end.

Definition is_frame_request (a : Arrival) : bool :=
  match a with
  | FrameRequested => true
  | _ => false
  end.

Definition is_console_log (c : Call) : bool :=
  match c with
  | ConsoleLog _ => true
  | _ => false
  end.

(** The calls of a run other than those on the console. *)
Definition rendering (arrivals : list Arrival) (r : Renderer) : list Call :=
  filter (fun c => negb (is_console_log c)) (snd (run arrivals r)).

End EyeTrackingRenderer.

(** * What the specification documents *)
Module Documented.
Import EnvironmentRenderingPass.

(** The dispatch table of the specification: the texture class a projection
    type requires of the primary texture, and the program it names. *)
Definition required_class (type : EnvironmentTextureType) : TextureClass :=
  match type with
  | CubeMap => TextureCube
  | EquirectangularMap => Texture2D
  | SphereMap => Texture2D
  | PolarMap => Texture2D
  end.

Definition documented_program (type : EnvironmentTextureType) (p : Pass) : Program :=
  match type with
  | CubeMap => _cubeMapProgram p
  | EquirectangularMap => _equiMapProgram p
  | SphereMap => _sphereMapProgram p
  | PolarMap => _polarMapProgram p
  end.

(** Unit 1 is bound for the polar map only, to the secondary texture. *)
Definition documented_secondary_binding (type : EnvironmentTextureType)
  (secondary : option Texture) : list Call :=
  match type, secondary with
  | PolarMap, Some texture2 => [TextureBind texture2 TEXTURE1]
  | _, _ => []
  end.

(** The secondary texture a projection type requires: a 2D texture for the
    polar map, nothing otherwise. *)
Definition secondary_as_required (type : EnvironmentTextureType)
  (secondary : option Texture) : bool :=
  match type with
  | PolarMap => instanceof secondary Texture2D
  | _ => true
  end.

(** The textures set do not fit the projection type set: a 2D texture for a
    cube map, a cube texture for one of the other three, or, for the polar
    map, a secondary texture that is missing or not a 2D texture. *)
Definition mismatched (p : Pass) : bool :=
  match _environmenTextureType p, _environmentTexture p with
  | Some CubeMap, Some texture => instanceof (Some texture) Texture2D
  | Some PolarMap, Some texture =>
      instanceof (Some texture) TextureCube
      || negb (instanceof (_environmentTexture2 p) Texture2D)
  | Some _, Some texture => instanceof (Some texture) TextureCube
  | _, _ => false
  end.

(** The fields no setter is meant to touch. *)
Definition same_owned_objects (p q : Pass) : Prop :=
  _cubeMapProgram q = _cubeMapProgram p /\
  _equiMapProgram q = _equiMapProgram p /\
  _sphereMapProgram q = _sphereMapProgram p /\
  _polarMapProgram q = _polarMapProgram p /\
  _ndcTriangle q = _ndcTriangle p /\
  _emptyTexture q = _emptyTexture p /\
  _emptyCubemap q = _emptyCubemap p.

(** A compilation or link step for which the toolkit signals failure. *)
Definition is_failed_compile_or_link (c : Call) : bool :=
  match c with
  | ShaderInitialize _ _ _ ok => negb ok
  | ShaderCompile _ ok => negb ok
  | ProgramInitialize _ _ _ ok => negb ok
  | ProgramLink _ ok => negb ok
  | _ => false
  end.

End Documented.

(** * Sample objects *)
Module Sample.
Import EnvironmentRenderingPass.

Definition camera : Camera :=
  mkCamera [1; 0; 0; 1]%Z [1; 0; 0; 1]%Z.

Definition sky2D : Texture := mkTexture Texture2D "SkyFront".
Definition sky2D_back : Texture := mkTexture Texture2D "SkyBack".
Definition skyCube : Texture := mkTexture TextureCube "SkyCube".

(** A pass as constructed, then set up for a projection with textures. *)
Definition pass (type : option EnvironmentTextureType)
  (texture texture2 : option Texture) (cam : option Camera) : Pass :=
  {| _environmentTexture := texture;
     _environmentTexture2 := texture2;
     _environmenTextureType := type;
     _camera := cam;
     _cubeMapProgram := _cubeMapProgram (constructor 0);
     _equiMapProgram := _equiMapProgram (constructor 0);
     _sphereMapProgram := _sphereMapProgram (constructor 0);
     _polarMapProgram := _polarMapProgram (constructor 0);
     _ndcTriangle := _ndcTriangle (constructor 0);
     _emptyTexture := _emptyTexture (constructor 0);
     _emptyCubemap := _emptyCubemap (constructor 0) |}.

(** A toolkit under which the cube-map variant of the fragment shader does
    not compile and the polar-map program does not link. *)
Definition failing_toolkit : Toolkit :=
  {| queryInternalTextureFormat := fun _ _ => (6407, 5121)%Z;
     env_projections_vert := "void main() {}";
     env_projections_frag := "void main() {}";
     succeeds := fun step =>
       match step with
       | CompileShader _ "CUBE_MAP" => false
       | LinkProgram {| program_identifier := "PolarmapEnvironmentProgram" |} => false
       | _ => true
       end |}.

(** A toolkit under which every step succeeds. *)
Definition working_toolkit : Toolkit :=
  {| queryInternalTextureFormat := fun _ _ => (6407, 5121)%Z;
     env_projections_vert := "void main() {}";
     env_projections_frag := "void main() {}";
     succeeds := fun _ => true |}.

Definition renderer : EyeTrackingRenderer.Renderer :=
  {| EyeTrackingRenderer._frameSize := (800, 600)%Z;
     EyeTrackingRenderer._camera := camera;
     EyeTrackingRenderer._cuboid := mkGeometry "Cuboid" 0;
     EyeTrackingRenderer._program := mkProgram "CubeProgram";
     EyeTrackingRenderer._uViewProjection :=
       uniform (mkProgram "CubeProgram") "u_viewProjection";
     EyeTrackingRenderer._defaultFBO := mkFramebuffer "DefaultFBO";
     EyeTrackingRenderer._eyeTrackerDataStream :=
       EyeTrackingRenderer.mkEyeTrackerDataStream
         (EyeTrackingRenderer.mkEyeTrackingData "")
         (EyeTrackingRenderer.OtherStatusMessage 0) "" |}.

End Sample.

(** * Bindings, program construction and configuration *)
Module Discipline.
Import EnvironmentRenderingPass.

Definition Program_eqb (a b : Program) : bool :=
  String.eqb (program_identifier a) (program_identifier b).

Definition Geometry_eqb (a b : Geometry) : bool :=
  String.eqb (geometry_identifier a) (geometry_identifier b)
  && Z.eqb (vertexLocation a) (vertexLocation b).

Definition Shader_eqb (a b : Shader) : bool :=
  Z.eqb (shader_type a) (shader_type b)
  && String.eqb (shader_identifier a) (shader_identifier b).

(** ** What is bound

    [program.bind()] puts the program in use and [program.unbind()] leaves no
    program in use; a geometry likewise.  Uniform uploads go to the program
    in use, and a draw takes the program in use and the geometry bound. *)
Record Bindings : Type := mkBindings {
  program_in_use : option Program;
  geometry_bound : option Geometry
}.

Definition nothing_bound : Bindings :=
  mkBindings None None.

Definition bind_step (b : Bindings) (c : Call) : Bindings :=
  match c with
  | ProgramBind p => mkBindings (Some p) (geometry_bound b)
  | ProgramUnbind _ => mkBindings None (geometry_bound b)
  | GeometryBind g => mkBindings (program_in_use b) (Some g)
  | GeometryUnbind _ => mkBindings (program_in_use b) None
  | _ => b
  end.

Definition bindings_after (b : Bindings) (calls : list Call) : Bindings :=
  fold_left bind_step calls b.

(** The program a uniform upload is meant for. *)
Definition upload_target (c : Call) : option Program :=
  match c with
  | Uniform1i location _ => Some (uniform_program location)
  | Uniform1iv location _ => Some (uniform_program location)
  | UniformMatrix4fv location _ _ => Some (uniform_program location)
  | _ => None
  end.

(** A call finds what it needs bound: an upload the program of its location
    in use, a draw some program in use and its own geometry bound. *)
Definition finds_bound (b : Bindings) (c : Call) : bool :=
  match upload_target c, c with
  | Some q, _ =>
      match program_in_use b with
      | Some p => Program_eqb p q
      | None => false
      end
  | None, GeometryDraw g =>
      match program_in_use b, geometry_bound b with
      | Some _, Some g' => Geometry_eqb g' g
      | _, _ => false
      end
  | None, _ => true
  end.

Fixpoint disciplined (b : Bindings) (calls : list Call) : bool :=
  match calls with
  | [] => true
  | c :: rest => finds_bound b c && disciplined (bind_step b c) rest
  end.

(** ** How programs are put together

    A program takes its attribute locations at link time, and can be used
    once linked: here every link of a program comes after its creation and
    after the location of [a_vertex] was given, and every use after a link. *)
Record Assembly : Type := mkAssembly {
  created : list Program;
  located : list Program;
  linked : list Program
}.

Definition mentions (q : Program) (l : list Program) : bool :=
  existsb (Program_eqb q) l.

Definition assembly_step (a : Assembly) (c : Call) : Assembly :=
  match c with
  | ProgramInitialize q _ _ _ => mkAssembly (q :: created a) (located a) (linked a)
  | ProgramAttribute q name _ =>
      if String.eqb name "a_vertex"
      then mkAssembly (created a) (q :: located a) (linked a)
      else a
  | ProgramLink q _ => mkAssembly (created a) (located a) (q :: linked a)
  | _ => a
  end.

Definition in_order (a : Assembly) (c : Call) : bool :=
  match c with
  | ProgramAttribute q _ _ => mentions q (created a)
  | ProgramLink q _ => mentions q (created a) && mentions q (located a)
  | ProgramBind q => mentions q (linked a)
  | _ => true
  end.

Fixpoint assembled_in_order (a : Assembly) (calls : list Call) : bool :=
  match calls with
  | [] => true
  | c :: rest => in_order a c && assembled_in_order (assembly_step a c) rest
  end.

Definition nothing_assembled : Assembly :=
  mkAssembly [] [] [].

(** Every attribute location, of whatever name, is given to a program before
    any link of that program: [linked] holds the programs linked so far. *)
Fixpoint located_before_link (linked : list Program) (calls : list Call) : bool :=
  match calls with
  | [] => true
  | ProgramAttribute q _ _ :: rest =>
      negb (mentions q linked) && located_before_link linked rest
  | ProgramLink q _ :: rest => located_before_link (q :: linked) rest
  | _ :: rest => located_before_link linked rest
  end.

(** The attributes a trace gives a location of to a program, by name. *)
Definition attributes_located (q : Program) (calls : list Call) : list string :=
  flat_map
    (fun c =>
       match c with
       | ProgramAttribute q' name _ => if Program_eqb q' q then [name] else []
       | _ => []
       end) calls.

Definition is_attribute (c : Call) : bool :=
  match c with
  | ProgramAttribute _ _ _ => true
  | _ => false
  end.

Definition assembly_after (a : Assembly) (calls : list Call) : Assembly :=
  fold_left assembly_step calls a.

Definition programs_of (p : Pass) : list Program :=
  [_cubeMapProgram p; _equiMapProgram p; _sphereMapProgram p; _polarMapProgram p].

(** Each of the four programs of a pass is created, located and linked. *)
Definition all_assembled (a : Assembly) (p : Pass) : bool :=
  forallb
    (fun q => mentions q (created a) && mentions q (located a) && mentions q (linked a))
    (programs_of p).

(** ** Which variant of the fragment shader a program is linked from

    [shader.replace] sets the text a marker is replaced by from the next
    [compile] on; a program is linked from the shader as last compiled.  The
    trace is read for one shader and the marker [PROJECTION_TYPE]. *)
Fixpoint linked_variants (shader : Shader) (replaced compiled : option string)
  (calls : list Call) : list (Program * option string) :=
  match calls with
  | [] => []
  | ShaderReplace s "PROJECTION_TYPE" value :: rest =>
      if Shader_eqb s shader
      then linked_variants shader (Some value) compiled rest
      else linked_variants shader replaced compiled rest
  | ShaderCompile s _ :: rest =>
      if Shader_eqb s shader
      then linked_variants shader replaced replaced rest
      else linked_variants shader replaced compiled rest
  | ProgramLink q _ :: rest =>
      (q, compiled) :: linked_variants shader replaced compiled rest
  | _ :: rest => linked_variants shader replaced compiled rest
  end.

(** The text [initialize] puts in place of the marker for a projection. *)
Definition projection_macro (type : EnvironmentTextureType) : string :=
  match type with
  | CubeMap => "CUBE_MAP"
  | EquirectangularMap => "EQUI_MAP"
  | SphereMap => "SPHERE_MAP"
  | PolarMap => "POLAR_MAP"
  end.

(** ** Sampler units

    A sampler uniform holds the index of the texture unit it reads:
    [gl.TEXTURE0 + i] for the value [i]. *)
Definition unit_index (u : TextureUnit) : Z :=
  match u with
  | TEXTURE0 => 0
  | TEXTURE1 => 1
  end.

(** The integers a trace uploads to uniforms of a program, in order. *)
Definition integers_uploaded (q : Program) (calls : list Call) : list Z :=
  flat_map
    (fun c =>
       match c with
       | Uniform1i location v =>
           if Program_eqb (uniform_program location) q then [v] else []
       | Uniform1iv location vs =>
           if Program_eqb (uniform_program location) q then vs else []
       | _ => []
       end) calls.

(** The indices of the texture units a trace binds textures to, in order. *)
Definition units_bound (calls : list Call) : list Z :=
  flat_map
    (fun c =>
       match c with
       | TextureBind _ u => [unit_index u]
       | _ => []
       end) calls.

Definition textures_bound (calls : list Call) : list Texture :=
  flat_map
    (fun c =>
       match c with
       | TextureBind t _ => [t]
       | _ => []
       end) calls.

(** ** Configuration *)

Definition is_setter (m : Member) : bool :=
  match m with
  | SetEnvironmentTextureType _ => true
  | SetEnvironmentTexture _ => true
  | SetEnvironmentTexture2 _ => true
  | SetCamera _ => true
  | _ => false
  end.

(** The value a field holds after a sequence of invocations, by the setter
    invoked last, or the value it held before if there was none. *)
Definition latest_type (ms : list Member) (before : option EnvironmentTextureType) :
  option EnvironmentTextureType :=
  fold_left
    (fun held m => match m with SetEnvironmentTextureType type => Some type | _ => held end)
    ms before.

Definition latest_texture (ms : list Member) (before : option Texture) : option Texture :=
  fold_left
    (fun held m => match m with SetEnvironmentTexture texture => Some texture | _ => held end)
    ms before.

Definition latest_texture2 (ms : list Member) (before : option Texture) : option Texture :=
  fold_left
    (fun held m => match m with SetEnvironmentTexture2 texture => Some texture | _ => held end)
    ms before.

Definition latest_camera (ms : list Member) (before : option Camera) : option Camera :=
  fold_left
    (fun held m => match m with SetCamera camera => Some camera | _ => held end)
    ms before.

Definition configured (ms : list Member) (p : Pass) : Pass :=
  {| _environmentTexture := latest_texture ms (_environmentTexture p);
     _environmentTexture2 := latest_texture2 ms (_environmentTexture2 p);
     _environmenTextureType := latest_type ms (_environmenTextureType p);
     _camera := latest_camera ms (_camera p);
     _cubeMapProgram := _cubeMapProgram p;
     _equiMapProgram := _equiMapProgram p;
     _sphereMapProgram := _sphereMapProgram p;
     _polarMapProgram := _polarMapProgram p;
     _ndcTriangle := _ndcTriangle p;
     _emptyTexture := _emptyTexture p;
     _emptyCubemap := _emptyCubemap p |}.

(** [frame] goes through: a camera and a primary texture are set, and the
    textures are of the class the projection type set tests for. *)
Definition ready (p : Pass) : bool :=
  defined (_camera p) && defined (_environmentTexture p)
  && match _environmenTextureType p with
     | None => true
     | Some CubeMap => instanceof (_environmentTexture p) TextureCube
     | Some EquirectangularMap => instanceof (_environmentTexture p) Texture2D
     | Some SphereMap => instanceof (_environmentTexture p) Texture2D
     | Some PolarMap =>
         instanceof (_environmentTexture p) Texture2D
         && instanceof (_environmentTexture2 p) Texture2D
     end.

(** The textures a host has handed to the pass: those its two fields hold
    and those the setters of a sequence of invocations are given. *)
Definition textures_held (p : Pass) : list Texture :=
  (match _environmentTexture p with Some t => [t] | None => [] end)
  ++ (match _environmentTexture2 p with Some t => [t] | None => [] end).

Definition textures_given (ms : list Member) : list Texture :=
  flat_map
    (fun m =>
       match m with
       | SetEnvironmentTexture texture => [texture]
       | SetEnvironmentTexture2 texture => [texture]
       | _ => []
       end) ms.

(** The four programs of a pass are four different programs. *)
Definition four_programs (p : Pass) : Prop :=
  NoDup [program_identifier (_cubeMapProgram p);
         program_identifier (_equiMapProgram p);
         program_identifier (_sphereMapProgram p);
         program_identifier (_polarMapProgram p)].

End Discipline.

(** * EyeTrackingRenderer: onInitialize *)
Module EyeTrackingSetup.
Import EnvironmentRenderingPass EyeTrackingRenderer.

(** The flags of [dataStreams] the renderer sets. *)
Inductive DataStreamFlag : Type :=
| gazePosition
| gazeOrigin
| eyePositionNormalized
| headPositionAndRotation
| userPresence.

(** The properties of the camera the renderer assigns. *)
Inductive CameraProperty : Type :=
| center
| up
| eye
| near
| far.

(** What [onInitialize] does: the calls of [Call], and its calls on the data
    stream, the camera and the navigation.  A subscription carries the
    closure subscribed.  The numbers assigned to the camera are whole in the
    source and kept as such. *)
Inductive SetupCall : Type :=
| OnToolkit (c : Call)
| StreamOnDataUpdate (callback : M Renderer unit)
| StreamOnStatusUpdate (callback : M Renderer unit)
| StreamSetDataStream (flag : DataStreamFlag) (value : bool)
| StreamConnect
| CameraAssign (property : CameraProperty) (value : list Z)
| NavigationAssignCamera.

(** What [onInitialize] obtains from outside the class: the frame size the
    base class keeps, the attribute locations of the cuboid, the two shader
    sources behind [require], the success the toolkit signals for a step,
    what the new data stream object holds, and the matrices of the camera as
    the renderer has set it up. *)
Record Host : Type := mkHost {
  frameSize : Z * Z;
  cuboid_vertexLocation : Z;
  cuboid_uvCoordLocation : Z;
  mesh_vert : string;
  mesh_frag : string;
  step_succeeds : Step -> bool;
  new_EyeTrackerDataStream : EyeTrackerDataStream;
  camera_set_up : Camera
}.

(** [mat4.identity(mat4.create())]: a Float32Array with 1.0 (0x3F800000) on
    the diagonal. *)
Definition identity : mat4 :=
  [1065353216; 0; 0; 0;
   0; 1065353216; 0; 0;
   0; 0; 1065353216; 0;
   0; 0; 0; 1065353216]%Z.

(** [gl.FALSE] is no member of the WebGL context and reads [undefined],
    which the context takes as [false]. *)
Definition FALSE : bool := false.

Record Initialized : Type := mkInitialized {
  result : bool;
  renderer : Renderer;
  setup_calls : list SetupCall
}.

Definition onInitialize (host : Host) : Initialized :=
  let _defaultFBO := mkFramebuffer "DefaultFBO" in
  let _cuboid := mkGeometry "Cuboid" (cuboid_vertexLocation host) in
  let vert := mkShader VERTEX_SHADER "mesh.vert" in
  let frag := mkShader FRAGMENT_SHADER "mesh.frag" in
  let _program := mkProgram "CubeProgram" in
  let _uViewProjection := uniform _program "u_viewProjection" in
  {| result := true;
     renderer :=
       {| _frameSize := frameSize host;
          EyeTrackingRenderer._camera := camera_set_up host;
          EyeTrackingRenderer._cuboid := _cuboid;
          EyeTrackingRenderer._program := _program;
          EyeTrackingRenderer._uViewProjection := _uViewProjection;
          EyeTrackingRenderer._defaultFBO := _defaultFBO;
          _eyeTrackerDataStream := new_EyeTrackerDataStream host |};
     setup_calls :=
       [ StreamOnDataUpdate onDataUpdate_callback;
         StreamOnStatusUpdate onStatusUpdate_callback;

         StreamSetDataStream gazePosition true;
         StreamSetDataStream gazeOrigin true;
         StreamSetDataStream eyePositionNormalized true;
         StreamSetDataStream headPositionAndRotation true;
         StreamSetDataStream userPresence true;
         StreamConnect;

         OnToolkit (FramebufferInitialize _defaultFBO);
         OnToolkit (FramebufferBind _defaultFBO);

         OnToolkit (GeometryInitialize _cuboid);

         OnToolkit (ShaderInitialize vert (mesh_vert host) None
                      (step_succeeds host (CreateShader vert)));
         OnToolkit (ShaderInitialize frag (mesh_frag host) None
                      (step_succeeds host (CreateShader frag)));

         OnToolkit (ProgramInitialize _program [vert; frag] false
                      (step_succeeds host (CreateProgram _program)));

         OnToolkit (ProgramAttribute _program "a_vertex" (cuboid_vertexLocation host));
         OnToolkit (ProgramAttribute _program "a_texCoord" (cuboid_uvCoordLocation host));
         OnToolkit (ProgramLink _program (step_succeeds host (LinkProgram _program)));
         OnToolkit (ProgramBind _program);

         OnToolkit (UniformMatrix4fv (uniform _program "u_model") FALSE identity);
         OnToolkit (Uniform1i (uniform _program "u_texture") 0);
         (* [false] handed over where an integer is taken: 0 *)
         OnToolkit (Uniform1i (uniform _program "u_textured") 0);

         CameraAssign center [0; 0; 0]%Z;
         CameraAssign up [0; 1; 0]%Z;
         CameraAssign eye [0; 0; 5]%Z;
         CameraAssign near [1]%Z;
         CameraAssign far [8]%Z;

         NavigationAssignCamera ] |}.

(** The calls of [Call] among the calls of [onInitialize]. *)
Definition toolkit_calls (calls : list SetupCall) : list Call :=
  flat_map
    (fun c =>
       match c with
       | OnToolkit c' => [c']
       | _ => []
       end) calls.

Definition is_connect (c : SetupCall) : bool :=
  match c with
  | StreamConnect => true
  | _ => false
  end.

Definition on_stream (c : SetupCall) : bool :=
  match c with
  | StreamOnDataUpdate _ => true
  | StreamOnStatusUpdate _ => true
  | StreamSetDataStream _ _ => true
  | StreamConnect => true
  | _ => false
  end.

(** The renderer keeps what [onFrame] works with: all fields but the data
    stream are the same. *)
Definition same_rendering (r r' : Renderer) : Prop :=
  _frameSize r' = _frameSize r
  /\ EyeTrackingRenderer._camera r' = EyeTrackingRenderer._camera r
  /\ EyeTrackingRenderer._cuboid r' = EyeTrackingRenderer._cuboid r
  /\ EyeTrackingRenderer._program r' = EyeTrackingRenderer._program r
  /\ EyeTrackingRenderer._uViewProjection r' = EyeTrackingRenderer._uViewProjection r
  /\ EyeTrackingRenderer._defaultFBO r' = EyeTrackingRenderer._defaultFBO r.

End EyeTrackingSetup.

(** * Properties of the resource ledger *)
Section Ledger.

Implicit Types (held : list Resource) (calls : list Call) (r : Resource).

Lemma held_from_app held calls1 calls2 :
  held_from held (calls1 ++ calls2) = held_from (held_from held calls1) calls2.
Proof.
  unfold held_from. apply fold_left_app.
Qed.

(** A resource held stays held as long as no call releases it. *)
Lemma held_from_survives calls : forall held r,
  In r held ->
  (forall c, In c calls -> releases c <> Some r) ->
  In r (held_from held calls).
Proof.
  induction calls as [| c calls IH]; intros held r Hin Hno; simpl.
  - exact Hin.
  - apply IH.
    + unfold ledger_step.
      destruct (acquires c) as [r1 |].
      * right. exact Hin.
      * destruct (releases c) as [r2 |] eqn:Hrel.
        -- apply in_in_remove; [| exact Hin].
           intros ->. apply (Hno c); [left; reflexivity | exact Hrel].
        -- exact Hin.
    + intros c' Hc'. apply Hno. right. exact Hc'.
Qed.

(** A resource acquired by a call is held after the trace if no later call
    releases it. *)
Lemma held_after_acquired before c later r :
  acquires c = Some r ->
  (forall c', In c' later -> releases c' <> Some r) ->
  In r (held_after (before ++ c :: later)).
Proof.
  intros Hacq Hno. unfold held_after.
  rewrite held_from_app. simpl.
  apply held_from_survives; [| exact Hno].
  unfold ledger_step. rewrite Hacq. left. reflexivity.
Qed.

(** Through calls that acquire nothing, what is held was held before and
    was released by none of the calls. *)
Lemma held_from_released calls : forall held r,
  (forall c, In c calls -> acquires c = None) ->
  In r (held_from held calls) ->
  In r held /\ (forall c, In c calls -> releases c <> Some r).
Proof.
  induction calls as [| c calls IH]; intros held r Hacq Hin; simpl in Hin.
  - split; [exact Hin | intros c' []].
  - destruct (IH (ledger_step held c) r) as [Hstep Hlater].
    + intros c' Hc'. apply Hacq. right. exact Hc'.
    + exact Hin.
    + unfold ledger_step in Hstep.
      rewrite (Hacq c (or_introl eq_refl)) in Hstep.
      destruct (releases c) as [r2 |] eqn:Hrel.
      * apply in_remove in Hstep. destruct Hstep as [Hheld Hne].
        split; [exact Hheld |].
        intros c' [<- | Hc'].
        -- rewrite Hrel. intros Heq. apply Hne. congruence.
        -- apply Hlater. exact Hc'.
      * split; [exact Hstep |].
        intros c' [<- | Hc'].
        -- rewrite Hrel. discriminate.
        -- apply Hlater. exact Hc'.
Qed.

(** What is held after a trace was held before it or acquired in it. *)
Lemma held_from_origin calls : forall held r,
  In r (held_from held calls) ->
  In r held \/ (exists c, In c calls /\ acquires c = Some r).
Proof.
  induction calls as [| c calls IH]; intros held r Hin; simpl in Hin.
  - left. exact Hin.
  - destruct (IH _ _ Hin) as [Hstep | [c' [Hc' Hacq]]].
    + unfold ledger_step in Hstep.
      destruct (acquires c) as [r1 |] eqn:Hacq.
      * destruct Hstep as [<- | Hheld].
        -- right. exists c. split; [left; reflexivity | exact Hacq].
        -- left. exact Hheld.
      * destruct (releases c) as [r2 |].
        -- apply in_remove in Hstep. left. apply Hstep.
        -- left. exact Hstep.
    + right. exists c'. split; [right; exact Hc' | exact Hacq].
Qed.

End Ledger.

(** * Properties of EnvironmentRenderingPass *)
Module PassProperties.
Import EnvironmentRenderingPass Documented.

(** Case analysis on everything [frame] branches on. *)
Ltac frame_cases p :=
  destruct p as [[[[] ?]|] [[[] ?]|] [[]|] [?|] ? ? ? ? ? ? ?].

(** C1.  With a projection type, a camera and a primary texture of the class
    the type requires set (and a secondary 2D texture for the polar map),
    [frame] returns, having bound the primary texture to unit 0, the
    secondary texture to unit 1 for the polar map only, then the documented
    program, uploaded the inverse view-projection matrix of the camera to it
    and drawn the screen-filling triangle once. *)
Theorem frame_dispatch (type : EnvironmentTextureType) (p : Pass)
  (cam : Camera) (texture : Texture) :
  _environmenTextureType p = Some type ->
  _camera p = Some cam ->
  _environmentTexture p = Some texture ->
  texture_class texture = required_class type ->
  secondary_as_required type (_environmentTexture2 p) = true ->
  let program := documented_program type p in
  frame p =
    Returns tt p
      ([TextureBind texture TEXTURE0]
       ++ documented_secondary_binding type (_environmentTexture2 p)
       ++ [ProgramBind program;
           UniformMatrix4fv (uniform program "u_viewProjectionInverse") false
             (viewProjectionInverse cam);
           GeometryBind (_ndcTriangle p);
           GeometryDraw (_ndcTriangle p);
           ProgramUnbind program])%list
  /\ count is_draw (calls_of (frame p)) = 1%nat.
Proof.
  intros Htype Hcam Htex Hclass Hsecondary.
  frame_cases p; simpl in Htype, Hcam, Htex, Hsecondary;
    inversion Htype; inversion Hcam; inversion Htex; subst;
    simpl in Hclass; try discriminate Hclass;
    simpl in Hsecondary; try discriminate Hsecondary;
    split; reflexivity.
Qed.

Lemma frame_dispatch_witness :
  frame (Sample.pass (Some PolarMap) (Some Sample.sky2D) (Some Sample.sky2D_back)
           (Some Sample.camera)) =
    Returns tt
      (Sample.pass (Some PolarMap) (Some Sample.sky2D) (Some Sample.sky2D_back)
         (Some Sample.camera))
      [TextureBind Sample.sky2D TEXTURE0;
       TextureBind Sample.sky2D_back TEXTURE1;
       ProgramBind (mkProgram "PolarmapEnvironmentProgram");
       UniformMatrix4fv
         (uniform (mkProgram "PolarmapEnvironmentProgram") "u_viewProjectionInverse")
         false [1; 0; 0; 1]%Z;
       GeometryBind (mkGeometry "EnvironmentNdcTriangle" 0);
       GeometryDraw (mkGeometry "EnvironmentNdcTriangle" 0);
       ProgramUnbind (mkProgram "PolarmapEnvironmentProgram")]
  /\ count is_draw
       (calls_of
          (frame (Sample.pass (Some PolarMap) (Some Sample.sky2D)
                    (Some Sample.sky2D_back) (Some Sample.camera)))) = 1%nat.
Proof.
  exact (frame_dispatch PolarMap
           (Sample.pass (Some PolarMap) (Some Sample.sky2D) (Some Sample.sky2D_back)
              (Some Sample.camera))
           Sample.camera Sample.sky2D
           eq_refl eq_refl eq_refl eq_refl eq_refl).
Defined.

(** C4.  Without a camera, or without a primary texture, [frame] throws the
    message of the assertion that failed; it has made no call by then, so it
    has drawn nothing, and it has not returned. *)
Theorem frame_requires_camera_and_texture (p : Pass) :
  _camera p = None \/ _environmentTexture p = None ->
  frame p =
    Throws
      (match _camera p with
       | None => "Camera is undefined in environment rendering pass."
       | Some _ => "Environment texture is undefined in environment rendering pass."
       end) p []
  /\ returned (frame p) = None
  /\ count is_draw (calls_of (frame p)) = 0%nat.
Proof.
  intros [Hcam | Htex].
  - destruct p as [? ? ? [?|] ? ? ? ? ? ? ?]; simpl in Hcam; try discriminate Hcam.
    repeat split.
  - destruct p as [[?|] ? ? [?|] ? ? ? ? ? ? ?]; simpl in Htex; try discriminate Htex;
      repeat split.
Qed.

Lemma frame_requires_camera_and_texture_witness :
  frame (Sample.pass (Some CubeMap) None None (Some Sample.camera)) =
    Throws "Environment texture is undefined in environment rendering pass."
      (Sample.pass (Some CubeMap) None None (Some Sample.camera)) []
  /\ returned (frame (Sample.pass (Some CubeMap) None None (Some Sample.camera))) = None
  /\ count is_draw
       (calls_of (frame (Sample.pass (Some CubeMap) None None (Some Sample.camera)))) = 0%nat.
Proof.
  exact (frame_requires_camera_and_texture
           (Sample.pass (Some CubeMap) None None (Some Sample.camera))
           (or_intror eq_refl)).
Defined.

(** C5.  When the textures set do not fit the projection type set, [frame]
    throws: it does not return, and it has made no call by then, neither a
    texture binding nor a draw. *)
Theorem frame_rejects_mismatched_texture (p : Pass) :
  mismatched p = true ->
  (exists message : string, frame p = Throws message p [])
  /\ count is_draw (calls_of (frame p)) = 0%nat.
Proof.
  intros Hmis.
  frame_cases p; cbn in Hmis; try discriminate Hmis;
    (split; [eexists; reflexivity | reflexivity]).
Qed.

Lemma frame_rejects_mismatched_texture_witness :
  (exists message : string,
      frame (Sample.pass (Some CubeMap) (Some Sample.sky2D) None (Some Sample.camera)) =
        Throws message
          (Sample.pass (Some CubeMap) (Some Sample.sky2D) None (Some Sample.camera)) [])
  /\ count is_draw
       (calls_of
          (frame (Sample.pass (Some CubeMap) (Some Sample.sky2D) None
                    (Some Sample.camera)))) = 0%nat.
Proof.
  exact (frame_rejects_mismatched_texture
           (Sample.pass (Some CubeMap) (Some Sample.sky2D) None (Some Sample.camera))
           eq_refl).
Defined.

(** C9.  With the projection type never set, a camera and a primary texture
    of either class set, [frame] fails no assertion: it returns, having bound
    no texture, bound the cube-map program, uploaded the matrix and drawn the
    screen-filling triangle once. *)
Theorem frame_without_type (p : Pass) (cam : Camera) (texture : Texture) :
  _environmenTextureType p = None ->
  _camera p = Some cam ->
  _environmentTexture p = Some texture ->
  frame p =
    Returns tt p
      [ProgramBind (_cubeMapProgram p);
       UniformMatrix4fv (uniform (_cubeMapProgram p) "u_viewProjectionInverse") false
         (viewProjectionInverse cam);
       GeometryBind (_ndcTriangle p);
       GeometryDraw (_ndcTriangle p);
       ProgramUnbind (_cubeMapProgram p)].
Proof.
  intros Htype Hcam Htex.
  destruct p as [? ? [?|] ? ? ? ? ? ? ? ?]; simpl in Htype, Hcam, Htex;
    try discriminate Htype; subst.
  reflexivity.
Qed.

Lemma frame_without_type_witness :
  frame (Sample.pass None (Some Sample.sky2D) None (Some Sample.camera)) =
    Returns tt (Sample.pass None (Some Sample.sky2D) None (Some Sample.camera))
      [ProgramBind (mkProgram "CubemapEnvironmentProgram");
       UniformMatrix4fv
         (uniform (mkProgram "CubemapEnvironmentProgram") "u_viewProjectionInverse")
         false [1; 0; 0; 1]%Z;
       GeometryBind (mkGeometry "EnvironmentNdcTriangle" 0);
       GeometryDraw (mkGeometry "EnvironmentNdcTriangle" 0);
       ProgramUnbind (mkProgram "CubemapEnvironmentProgram")].
Proof.
  exact (frame_without_type
           (Sample.pass None (Some Sample.sky2D) None (Some Sample.camera))
           Sample.camera Sample.sky2D eq_refl eq_refl eq_refl).
Defined.

(** C6.  Each of the four setters returns for every argument and every pass,
    makes no call, leaves its own field holding the argument and every other
    field as it was. *)
Theorem setters_only_assign (p : Pass) :
  (forall type : EnvironmentTextureType,
      let o := set_environmentTextureType type p in
      returned o = Some tt /\ calls_of o = [] /\
      _environmenTextureType (fields_of o) = Some type /\
      _environmentTexture (fields_of o) = _environmentTexture p /\
      _environmentTexture2 (fields_of o) = _environmentTexture2 p /\
      _camera (fields_of o) = _camera p /\
      same_owned_objects p (fields_of o))
  /\
  (forall texture : Texture,
      let o := set_environmentTexture texture p in
      returned o = Some tt /\ calls_of o = [] /\
      _environmentTexture (fields_of o) = Some texture /\
      _environmenTextureType (fields_of o) = _environmenTextureType p /\
      _environmentTexture2 (fields_of o) = _environmentTexture2 p /\
      _camera (fields_of o) = _camera p /\
      same_owned_objects p (fields_of o))
  /\
  (forall texture : Texture,
      let o := set_environmentTexture2 texture p in
      returned o = Some tt /\ calls_of o = [] /\
      _environmentTexture2 (fields_of o) = Some texture /\
      _environmenTextureType (fields_of o) = _environmenTextureType p /\
      _environmentTexture (fields_of o) = _environmentTexture p /\
      _camera (fields_of o) = _camera p /\
      same_owned_objects p (fields_of o))
  /\
  (forall camera : Camera,
      let o := set_camera camera p in
      returned o = Some tt /\ calls_of o = [] /\
      _camera (fields_of o) = Some camera /\
      _environmenTextureType (fields_of o) = _environmenTextureType p /\
      _environmentTexture (fields_of o) = _environmentTexture p /\
      _environmentTexture2 (fields_of o) = _environmentTexture2 p /\
      same_owned_objects p (fields_of o)).
Proof.
  unfold same_owned_objects.
  repeat split.
Qed.

(** A setter takes a texture that does not fit the projection type set; the
    check is left to [frame]. *)
Example setter_accepts_unfit_texture :
  let o := set_environmentTexture Sample.sky2D
             (Sample.pass (Some CubeMap) None None (Some Sample.camera)) in
  returned o = Some tt /\ returned (frame (fields_of o)) = None.
Proof.
  split; reflexivity.
Qed.

(** ** initialize and uninitialize *)

(** [initialize] makes the same calls under every toolkit but for the
    outcomes signalled, changes no field and returns [true]. *)
Lemma initialize_returns (tk : Toolkit) (p : Pass) :
  exists calls, initialize tk p = Returns true p calls.
Proof.
  eexists. reflexivity.
Qed.

(** The body of [initialize], run to its end, returns [true] whatever the
    toolkit signals. *)
Theorem initialize_returns_true (tk : Toolkit) (p : Pass) :
  returned (initialize tk p) = Some true.
Proof.
  reflexivity.
Qed.

(** C2, as the code has it.  [initialize()] never returns [false]: whatever
    its decorator decides, whichever call into the toolkit throws if any, and
    whatever the toolkit signals for the creation and compilation of the
    shaders and the creation and linking of the programs, it returns [true]
    or it throws.  It returns [true] when the decorator lets the body run and
    no call throws, and it throws, without a call made, when the decorator
    refuses.  So the returned boolean does not tell whether one of the steps
    failed. *)
Theorem initialize_never_returns_false (verdict : option string)
  (fault : option (nat * string)) (tk : Toolkit) (p : Pass) :
  (returned (initialize_member verdict fault tk p) = Some true
   \/ returned (initialize_member verdict fault tk p) = None)
  /\ returned (initialize_member None None tk p) = Some true
  /\ (forall message : string,
        initialize_member (Some message) fault tk p = Throws message p []).
Proof.
  split; [| split; [reflexivity | intros message; reflexivity]].
  unfold initialize_member, decorated, thrown_in_call.
  destruct verdict as [message |]; [right; reflexivity |].
  destruct fault as [[k message] |]; [| left; reflexivity].
  destruct (Nat.ltb k (length (calls_of (initialize tk p)))).
  - right. reflexivity.
  - left. reflexivity.
Qed.

(** Where the decorator lets the call through and no call into the toolkit
    throws, a member is its body. *)
Lemma members_run_bodies (tk : Toolkit) (p : Pass) :
  initialize_member None None tk p = initialize tk p
  /\ uninitialize_member None None p = uninitialize p.
Proof.
  split; reflexivity.
Qed.

(** C2, refuted.  Under a toolkit that signals a failed compilation and a
    failed link, [initialize] returns [true]; and in no execution with a
    failed step does it return [false]. *)
Lemma initialize_does_not_surface_failure :
  (existsb is_failed_compile_or_link
     (calls_of (initialize Sample.failing_toolkit (constructor 0))) = true
   /\ returned (initialize Sample.failing_toolkit (constructor 0)) = Some true)
  /\ ~ (exists (tk : Toolkit) (p : Pass),
          existsb is_failed_compile_or_link (calls_of (initialize tk p)) = true
          /\ returned (initialize tk p) = Some false).
Proof.
  split.
  - split; reflexivity.
  - intros (tk & p & _ & Hfalse).
    destruct (initialize_returns tk p) as [calls Hreturns].
    rewrite Hreturns in Hfalse. discriminate Hfalse.
Qed.

Lemma uninitialize_calls (p : Pass) :
  uninitialize p =
    Returns tt p
      [ProgramUninitialize (_cubeMapProgram p);
       ProgramUninitialize (_equiMapProgram p);
       ProgramUninitialize (_sphereMapProgram p);
       ProgramUninitialize (_polarMapProgram p)].
Proof.
  reflexivity.
Qed.

(** The programs are the only programs [initialize] acquires. *)
Lemma initialize_acquires_programs (tk : Toolkit) (p : Pass) (c : Call) (q : Program) :
  In c (calls_of (initialize tk p)) ->
  acquires c = Some (RProgram q) ->
  In q [_cubeMapProgram p; _equiMapProgram p; _sphereMapProgram p; _polarMapProgram p].
Proof.
  intros Hin Hacq. cbn in Hin.
  repeat (destruct Hin as [<- | Hin];
          [cbn in Hacq; first [discriminate Hacq
                              | injection Hacq as <-; cbn; tauto] |]).
  destruct Hin.
Qed.

(** C7, refuted.  On the pass as constructed and under a toolkit whose every
    step succeeds, [initialize] followed by [uninitialize] leaves five
    resources held: the two shaders, the two placeholder textures and the
    screen-filling triangle, which is the geometry a frame draws. *)
Lemma uninitialize_leaves_resources_held :
  held_after
    (calls_of (initialize Sample.working_toolkit (constructor 0))
     ++ calls_of (uninitialize (constructor 0))) =
    [RShader (mkShader FRAGMENT_SHADER "glyph.frag");
     RShader (mkShader VERTEX_SHADER "glyph.vert");
     RTexture (_emptyCubemap (constructor 0));
     RTexture (_emptyTexture (constructor 0));
     RGeometry (_ndcTriangle (constructor 0))]
  /\ In (GeometryDraw (_ndcTriangle (constructor 0)))
       (calls_of
          (frame (Sample.pass (Some CubeMap) (Some Sample.skyCube) None
                    (Some Sample.camera)))).
Proof.
  split.
  - vm_compute. reflexivity.
  - simpl. tauto.
Qed.

(** C7, as the code has it.  [initialize] followed by [uninitialize]: both
    return, [uninitialize] calls [uninitialize] on each of the four programs,
    and afterwards no program is held. *)
Theorem uninitialize_releases_programs (tk : Toolkit) (p : Pass) :
  let o1 := initialize tk p in
  let o2 := uninitialize (fields_of o1) in
  returned o1 = Some true /\ returned o2 = Some tt
  /\ (forall q : Program,
        In q [_cubeMapProgram p; _equiMapProgram p; _sphereMapProgram p;
              _polarMapProgram p] ->
        In (ProgramUninitialize q) (calls_of o2))
  /\ (forall q : Program,
        ~ In (RProgram q) (held_after (calls_of o1 ++ calls_of o2))).
Proof.
  intros o1 o2.
  assert (Hfields : fields_of o1 = p) by reflexivity.
  assert (Hcalls2 : calls_of o2 =
            [ProgramUninitialize (_cubeMapProgram p);
             ProgramUninitialize (_equiMapProgram p);
             ProgramUninitialize (_sphereMapProgram p);
             ProgramUninitialize (_polarMapProgram p)]) by reflexivity.
  assert (Hall : forall q : Program,
            In q [_cubeMapProgram p; _equiMapProgram p; _sphereMapProgram p;
                  _polarMapProgram p] ->
            In (ProgramUninitialize q) (calls_of o2)).
  { rewrite Hcalls2. intros q Hq.
    destruct Hq as [<- | [<- | [<- | [<- | []]]]]; cbn; tauto. }
  repeat split; try reflexivity; [exact Hall |].
  intros q Hheld.
  unfold held_after in Hheld. rewrite held_from_app in Hheld.
  apply held_from_released in Hheld.
  - destruct Hheld as [Hheld Hkept].
    apply held_from_origin in Hheld.
    destruct Hheld as [[] | [c [Hc Hacq]]].
    apply (Hkept (ProgramUninitialize q)); [| reflexivity].
    apply Hall. exact (initialize_acquires_programs tk p c q Hc Hacq).
  - rewrite Hcalls2. intros c Hc. cbn in Hc.
    repeat (destruct Hc as [<- | Hc]; [reflexivity |]). destruct Hc.
Qed.

(** Every member of the pass releases at most programs. *)
Lemma invoke_releases_at_most_programs (m : Member) (p : Pass) :
  forallb releases_at_most_a_program (calls_of (invoke m p)) = true.
Proof.
  destruct m; try reflexivity.
  frame_cases p; reflexivity.
Qed.

Lemma run_releases_at_most_programs (ms : list Member) : forall p : Pass,
  forallb releases_at_most_a_program (snd (run ms p)) = true.
Proof.
  induction ms as [| m ms IH]; intros p; simpl.
  - reflexivity.
  - specialize (IH (fields_of (invoke m p))).
    destruct (run ms (fields_of (invoke m p))) as [p' calls]. simpl in *.
    rewrite forallb_app, invoke_releases_at_most_programs, IH. reflexivity.
Qed.

(** C10.  [uninitialize] calls [uninitialize] on the four programs and makes
    no other call; after [initialize] and [uninitialize] the screen-filling
    triangle and the two placeholder textures are still held; and under no
    sequence of invocations of its members does the pass release anything but
    a program. *)
Theorem uninitialize_releases_only_programs (tk : Toolkit) (p : Pass)
  (ms : list Member) :
  calls_of (uninitialize p) =
    [ProgramUninitialize (_cubeMapProgram p);
     ProgramUninitialize (_equiMapProgram p);
     ProgramUninitialize (_sphereMapProgram p);
     ProgramUninitialize (_polarMapProgram p)]
  /\ (let o1 := initialize tk p in
      let o2 := uninitialize (fields_of o1) in
      In (RGeometry (_ndcTriangle p)) (held_after (calls_of o1 ++ calls_of o2))
      /\ In (RTexture (_emptyTexture p)) (held_after (calls_of o1 ++ calls_of o2))
      /\ In (RTexture (_emptyCubemap p)) (held_after (calls_of o1 ++ calls_of o2)))
  /\ (forall c : Call,
        In c (snd (run ms p)) ->
        forall r : Resource, releases c = Some r -> exists q : Program, r = RProgram q).
Proof.
  split; [reflexivity | split].
  - cbn zeta.
    repeat split.
    + apply (held_after_acquired [] (GeometryInitialize (_ndcTriangle p))).
      * reflexivity.
      * intros c Hc. cbn in Hc.
        repeat (destruct Hc as [<- | Hc]; [discriminate |]). destruct Hc.
    + apply (held_after_acquired [GeometryInitialize (_ndcTriangle p)]
               (Texture2DInitialize (_emptyTexture p) 1 1
                  (fst (queryInternalTextureFormat tk RGB byte)) RGB
                  (snd (queryInternalTextureFormat tk RGB byte)))).
      * reflexivity.
      * intros c Hc. cbn in Hc.
        repeat (destruct Hc as [<- | Hc]; [discriminate |]). destruct Hc.
    + apply (held_after_acquired
               [GeometryInitialize (_ndcTriangle p);
                Texture2DInitialize (_emptyTexture p) 1 1
                  (fst (queryInternalTextureFormat tk RGB byte)) RGB
                  (snd (queryInternalTextureFormat tk RGB byte))]
               (TextureCubeInitialize (_emptyCubemap p) 1
                  (fst (queryInternalTextureFormat tk RGB byte)) RGB
                  (snd (queryInternalTextureFormat tk RGB byte)))).
      * reflexivity.
      * intros c Hc. cbn in Hc.
        repeat (destruct Hc as [<- | Hc]; [discriminate |]). destruct Hc.
  - intros c Hc r Hrel.
    pose proof (run_releases_at_most_programs ms p) as Hall.
    rewrite forallb_forall in Hall. specialize (Hall c Hc).
    unfold releases_at_most_a_program in Hall. rewrite Hrel in Hall.
    destruct r; try discriminate Hall. eexists. reflexivity.
Qed.

End PassProperties.

(** * Properties of EyeTrackingRenderer *)
Module RendererProperties.
Import EyeTrackingRenderer.

(** C3, as the code has it.  [onFrame] returns and leaves the fields as they
    were.  Before its one draw, of the cuboid, it has cleared the default
    framebuffer with a mask that holds the color and the depth bit, enabled
    culling of back faces and the depth test, and bound its one program; after
    the draw it unbinds the cuboid and the program and disables face culling,
    so that face culling is off when it returns. *)
Theorem onFrame_effect (r : Renderer) :
  exists before after : list Call,
    onFrame r = Returns tt r (before ++ GeometryDraw (_cuboid r) :: after)
    /\ (exists mask : Z,
          In (FramebufferClear (_defaultFBO r) mask true false) before
          /\ Z.land mask COLOR_BUFFER_BIT = COLOR_BUFFER_BIT
          /\ Z.land mask DEPTH_BUFFER_BIT = DEPTH_BUFFER_BIT)
    /\ In (Enable CULL_FACE) before
    /\ In (CullFace BACK) before
    /\ In (Enable DEPTH_TEST) before
    /\ In (ProgramBind (_program r)) before
    /\ count is_program_bind (before ++ GeometryDraw (_cuboid r) :: after) = 1%nat
    /\ count is_draw (before ++ GeometryDraw (_cuboid r) :: after) = 1%nat
    /\ In (GeometryUnbind (_cuboid r)) after
    /\ In (ProgramUnbind (_program r)) after
    /\ In (Disable CULL_FACE) after
    /\ (forall g : Capabilities,
          isEnabled
            (context_after (before ++ GeometryDraw (_cuboid r) :: after) g)
            CULL_FACE = false).
Proof.
  exists [FramebufferBind (_defaultFBO r);
          FramebufferClear (_defaultFBO r)
            (Z.lor COLOR_BUFFER_BIT DEPTH_BUFFER_BIT) true false;
          Viewport 0 0 (fst (_frameSize r)) (snd (_frameSize r));
          Enable CULL_FACE; CullFace BACK; Enable DEPTH_TEST;
          ProgramBind (_program r);
          UniformMatrix4fv (_uViewProjection r) GL_FALSE (viewProjection (_camera r));
          GeometryBind (_cuboid r)].
  exists [GeometryUnbind (_cuboid r); ProgramUnbind (_program r);
          CullFace BACK; Disable CULL_FACE].
  split; [reflexivity |].
  split.
  { exists (Z.lor COLOR_BUFFER_BIT DEPTH_BUFFER_BIT).
    split; [cbn; tauto | split; reflexivity]. }
  repeat split; try (cbn; tauto).
Qed.

(** C3, refuted.  [onFrame] enables the depth test and never disables it:
    run on a fresh context, where the depth test is off, it returns with the
    depth test on. *)
Lemma onFrame_leaves_depth_test_enabled :
  enables_matched (calls_of (onFrame Sample.renderer)) = false
  /\ isEnabled fresh_context DEPTH_TEST = false
  /\ isEnabled (context_after (calls_of (onFrame Sample.renderer)) fresh_context)
       DEPTH_TEST = true.
Proof.
  repeat split.
Qed.

(** Nor is face culling put back to what it was: [onFrame] leaves it off
    also where it was on. *)
Example onFrame_turns_culling_off :
  isEnabled
    (context_after (calls_of (onFrame Sample.renderer)) (mkCapabilities true true))
    CULL_FACE = false.
Proof.
  reflexivity.
Qed.

(** ** The two callbacks *)

Lemma onFrame_returns (r : Renderer) :
  fields_of (onFrame r) = r.
Proof.
  reflexivity.
Qed.

Lemma onDataUpdate_callback_logs (r : Renderer) :
  onDataUpdate_callback r =
    Returns tt r [ConsoleLog (toString (eyeTrackingData (_eyeTrackerDataStream r)))].
Proof.
  reflexivity.
Qed.

Lemma onStatusUpdate_callback_logs (r : Renderer) :
  exists message : string,
    onStatusUpdate_callback r = Returns tt r [ConsoleLog message].
Proof.
  unfold onStatusUpdate_callback.
  destruct r as [? ? ? ? ? ? [? status ?]].
  destruct status; eexists; reflexivity.
Qed.

(** [onFrame] reads nothing of the data stream. *)
Lemma onFrame_ignores_stream (stream : EyeTrackerDataStream) (r : Renderer) :
  calls_of (onFrame (stream_updated stream r)) = calls_of (onFrame r).
Proof.
  reflexivity.
Qed.

Lemma rendering_cons (a : Arrival) (arrivals : list Arrival) (r : Renderer) :
  rendering (a :: arrivals) r =
    (filter (fun c => negb (is_console_log c)) (calls_of (arrive a r))
     ++ rendering arrivals (fields_of (arrive a r)))%list.
Proof.
  unfold rendering. simpl.
  destruct (run arrivals (fields_of (arrive a r))) as [r' calls]. simpl.
  apply filter_app.
Qed.

Lemma arrive_callback_fields (a : Arrival) (r : Renderer) :
  is_frame_request a = false ->
  exists stream : EyeTrackerDataStream,
    fields_of (arrive a r) = stream_updated stream r
    /\ filter (fun c => negb (is_console_log c)) (calls_of (arrive a r)) = [].
Proof.
  destruct a as [| stream | stream]; intros Hnot; try discriminate Hnot;
    exists stream; simpl.
  - split; reflexivity.
  - destruct (onStatusUpdate_callback_logs (stream_updated stream r)) as [message ->].
    split; reflexivity.
Qed.

(** What the data stream holds does not show in the rendering. *)
Lemma rendering_ignores_stream (arrivals : list Arrival) :
  forall (stream : EyeTrackerDataStream) (r : Renderer),
    rendering arrivals (stream_updated stream r) = rendering arrivals r.
Proof.
  induction arrivals as [| a arrivals IH]; intros stream r.
  - reflexivity.
  - rewrite !rendering_cons.
    destruct a as [| stream' | stream'].
    + simpl arrive. rewrite !onFrame_returns, onFrame_ignores_stream, IH.
      reflexivity.
    + reflexivity.
    + reflexivity.
Qed.

(** C8.  Each of the two callbacks, on any fields of the renderer and any
    content of the data stream, returns, leaves the fields as they are and
    makes one call, on the console.  However the stream's notifications fall
    between the frames, from before the first frame on, the calls the renderer
    makes other than on the console are those of the frames alone. *)
Theorem callbacks_only_log (r : Renderer) :
  (exists message : string,
      onDataUpdate_callback r = Returns tt r [ConsoleLog message])
  /\ (exists message : string,
        onStatusUpdate_callback r = Returns tt r [ConsoleLog message])
  /\ (forall arrivals : list Arrival,
        rendering arrivals r = snd (run (filter is_frame_request arrivals) r)).
Proof.
  split; [eexists; apply onDataUpdate_callback_logs |].
  split; [apply onStatusUpdate_callback_logs |].
  intros arrivals. revert r.
  induction arrivals as [| a arrivals IH]; intros r.
  - reflexivity.
  - rewrite rendering_cons.
    destruct (is_frame_request a) eqn:Hframe.
    + destruct a; try discriminate Hframe.
      simpl filter at 2. simpl run.
      rewrite onFrame_returns, IH.
      destruct (run (filter is_frame_request arrivals) r) as [r' calls].
      reflexivity.
    + destruct (arrive_callback_fields a r Hframe) as [stream [-> ->]].
      simpl filter. rewrite Hframe.
      rewrite rendering_ignores_stream. apply IH.
Qed.

End RendererProperties.

(** * Properties of traces *)
Section Traces.
Import Discipline.

Lemma Program_eqb_refl (q : Program) : Program_eqb q q = true.
Proof.
  apply String.eqb_refl.
Qed.

Lemma Geometry_eqb_refl (g : Geometry) : Geometry_eqb g g = true.
Proof.
  unfold Geometry_eqb. rewrite String.eqb_refl, Z.eqb_refl. reflexivity.
Qed.

Lemma mentions_cons (q x : Program) (l : list Program) :
  mentions q l = true -> mentions q (x :: l) = true.
Proof.
  unfold mentions. simpl. intros ->. apply orb_true_r.
Qed.

Lemma assembled_in_order_app (calls1 calls2 : list Call) : forall a : Assembly,
  assembled_in_order a (calls1 ++ calls2) =
    assembled_in_order a calls1
    && assembled_in_order (assembly_after a calls1) calls2.
Proof.
  induction calls1 as [| c calls1 IH]; intros a; simpl.
  - reflexivity.
  - rewrite IH, andb_assoc. reflexivity.
Qed.

Lemma count_app (f : Call -> bool) (calls1 calls2 : list Call) :
  count f (calls1 ++ calls2) = (count f calls1 + count f calls2)%nat.
Proof.
  unfold count. rewrite filter_app, length_app. reflexivity.
Qed.

Lemma context_after_app (calls1 calls2 : list Call) (g : Capabilities) :
  context_after (calls1 ++ calls2) g = context_after calls2 (context_after calls1 g).
Proof.
  unfold context_after. apply fold_left_app.
Qed.

Lemma disciplined_app (calls1 calls2 : list Call) : forall b : Bindings,
  disciplined b (calls1 ++ calls2) =
    disciplined b calls1 && disciplined (bindings_after b calls1) calls2.
Proof.
  induction calls1 as [| c calls1 IH]; intros b; simpl.
  - reflexivity.
  - rewrite IH, andb_assoc. reflexivity.
Qed.

Lemma bindings_after_app (calls1 calls2 : list Call) (b : Bindings) :
  bindings_after b (calls1 ++ calls2) =
    bindings_after (bindings_after b calls1) calls2.
Proof.
  unfold bindings_after. apply fold_left_app.
Qed.

Lemma mentions_linked_step (q : Program) (a : Assembly) (c : Call) :
  mentions q (linked a) = true -> mentions q (linked (assembly_step a c)) = true.
Proof.
  intros Hlinked.
  destruct c; simpl; try exact Hlinked.
  - match goal with
    | |- context [(?name =? "a_vertex")%string] => destruct (name =? "a_vertex")%string
    end; exact Hlinked.
  - unfold mentions in *. simpl. rewrite Hlinked. apply orb_true_r.
Qed.

Lemma mentions_linked_after (q : Program) (calls : list Call) : forall a : Assembly,
  mentions q (linked a) = true ->
  mentions q (linked (assembly_after a calls)) = true.
Proof.
  induction calls as [| c calls IH]; intros a Hlinked; simpl.
  - exact Hlinked.
  - apply IH. apply mentions_linked_step. exact Hlinked.
Qed.

End Traces.

(** * Further properties of EnvironmentRenderingPass *)
Module PassExtras.
Import EnvironmentRenderingPass Documented Discipline.

(** Case analysis on the four fields [frame] branches on. *)
Ltac by_fields p :=
  destruct p as [[[[] ?]|] [[[] ?]|] [[]|] [?|] ? ? ? ? ? ? ?].

Lemma frame_keeps_fields (p : Pass) :
  fields_of (frame p) = p.
Proof.
  by_fields p; reflexivity.
Qed.

Lemma run_app (ms1 ms2 : list Member) : forall p : Pass,
  run (ms1 ++ ms2) p =
    (fst (run ms2 (fst (run ms1 p))),
     (snd (run ms1 p) ++ snd (run ms2 (fst (run ms1 p))))%list).
Proof.
  induction ms1 as [| m ms1 IH]; intros p; simpl.
  - destruct (run ms2 p); reflexivity.
  - rewrite IH.
    destruct (run ms1 (fields_of (invoke m p))) as [p1 calls1]. simpl.
    rewrite app_assoc. reflexivity.
Qed.

Lemma run_cons (m : Member) (ms : list Member) (p : Pass) :
  run (m :: ms) p =
    (fst (run ms (fields_of (invoke m p))),
     (calls_of (invoke m p) ++ snd (run ms (fields_of (invoke m p))))%list).
Proof.
  simpl. destruct (run ms (fields_of (invoke m p))). reflexivity.
Qed.

(** X1.  [frame] returns exactly when the pass is ready, and then it has
    drawn once; otherwise it throws and has made no call at all.  In both
    cases it leaves every field as it was. *)
Theorem frame_all_or_nothing (p : Pass) :
  fields_of (frame p) = p
  /\ returned (frame p) = (if ready p then Some tt else None)
  /\ count is_draw (calls_of (frame p)) = (if ready p then 1%nat else 0%nat)
  /\ (calls_of (frame p) = [] <-> ready p = false).
Proof.
  split; [apply frame_keeps_fields |].
  by_fields p; cbn; repeat split; intros H; first [reflexivity | discriminate H].
Qed.

(** X2.  Frames repeat: any number of frames in a row leaves the fields as
    they were and makes the calls of one frame that many times over. *)
Theorem frames_repeat (n : nat) (p : Pass) :
  run (repeat Frame n) p = (p, concat (repeat (calls_of (frame p)) n)).
Proof.
  induction n as [| n IH]; simpl.
  - reflexivity.
  - rewrite frame_keeps_fields, IH. reflexivity.
Qed.

Lemma configured_cons (m : Member) (ms : list Member) (p : Pass) :
  is_setter m = true ->
  configured ms (fields_of (invoke m p)) = configured (m :: ms) p.
Proof.
  destruct m; intros Hset; try discriminate Hset; reflexivity.
Qed.

Lemma setter_silent (m : Member) (p : Pass) :
  is_setter m = true -> calls_of (invoke m p) = [].
Proof.
  destruct m; intros Hset; try discriminate Hset; reflexivity.
Qed.

Lemma run_setters (ms : list Member) : forall p : Pass,
  forallb is_setter ms = true ->
  run ms p = (configured ms p, []).
Proof.
  induction ms as [| m ms IH]; intros p Hall; simpl in Hall |- *.
  - destruct p; reflexivity.
  - apply andb_prop in Hall. destruct Hall as [Hm Hms].
    rewrite (IH _ Hms), (setter_silent m p Hm), (configured_cons m ms p Hm).
    reflexivity.
Qed.

(** X3.  Through any sequence of setter invocations the pass makes no call,
    and each of the four fields ends up with the value set last, or with its
    old value if it was not set; a frame that follows runs on exactly these
    fields.  So neither the order of the setters nor a value set earlier makes
    a difference to the frame. *)
Theorem last_value_set_wins (ms : list Member) (p : Pass) :
  forallb is_setter ms = true ->
  run ms p = (configured ms p, [])
  /\ run (ms ++ [Frame]) p = (configured ms p, calls_of (frame (configured ms p))).
Proof.
  intros Hall. split; [apply run_setters; exact Hall |].
  rewrite run_app, (run_setters ms p Hall). simpl.
  rewrite frame_keeps_fields, app_nil_r. reflexivity.
Qed.

Lemma last_value_set_wins_witness :
  run [SetEnvironmentTexture Sample.skyCube; SetCamera Sample.camera;
       SetEnvironmentTextureType CubeMap; SetEnvironmentTexture Sample.sky2D;
       SetEnvironmentTextureType SphereMap] (constructor 0) =
    (Sample.pass (Some SphereMap) (Some Sample.sky2D) None (Some Sample.camera), [])
  /\ run ([SetEnvironmentTexture Sample.skyCube; SetCamera Sample.camera;
           SetEnvironmentTextureType CubeMap; SetEnvironmentTexture Sample.sky2D;
           SetEnvironmentTextureType SphereMap] ++ [Frame]) (constructor 0) =
       (Sample.pass (Some SphereMap) (Some Sample.sky2D) None (Some Sample.camera),
        calls_of
          (frame (Sample.pass (Some SphereMap) (Some Sample.sky2D) None
                    (Some Sample.camera)))).
Proof.
  exact (last_value_set_wins
           [SetEnvironmentTexture Sample.skyCube; SetCamera Sample.camera;
            SetEnvironmentTextureType CubeMap; SetEnvironmentTexture Sample.sky2D;
            SetEnvironmentTextureType SphereMap] (constructor 0) eq_refl).
Defined.

Lemma configured_step (m : Member) (ms : list Member) (p : Pass) :
  configured ms (fields_of (invoke m p)) = configured (m :: ms) p.
Proof.
  destruct m; try reflexivity.
  simpl invoke. rewrite frame_keeps_fields. reflexivity.
Qed.

(** X17.  Through any sequence of invocations of its members, also where a
    frame throws, the fields of the pass change by the setters alone: the four
    fields a setter assigns hold the value set last, and the programs, the
    triangle and the placeholder textures stay the objects the pass had to
    begin with. *)
Theorem fields_change_by_setters_alone (ms : list Member) (p : Pass) :
  fst (run ms p) = configured ms p
  /\ same_owned_objects p (fst (run ms p)).
Proof.
  assert (Hfields : forall q : Pass, fst (run ms q) = configured ms q).
  { induction ms as [| m ms IH]; intros q.
    - destruct q; reflexivity.
    - rewrite run_cons. cbn [fst]. rewrite IH. apply configured_step. }
  split; [apply Hfields |].
  rewrite Hfields. unfold same_owned_objects. repeat split.
Qed.

(** X4.  Unless the projection type set is the polar map, the secondary
    texture is of no account: setting it changes neither whether [frame]
    returns nor the calls it makes. *)
Theorem frame_ignores_secondary_texture (p : Pass) (texture2 : Texture) :
  _environmenTextureType p <> Some PolarMap ->
  returned (frame (fields_of (set_environmentTexture2 texture2 p))) = returned (frame p)
  /\ calls_of (frame (fields_of (set_environmentTexture2 texture2 p))) = calls_of (frame p).
Proof.
  intros Hnot.
  by_fields p; first [exfalso; apply Hnot; reflexivity | split; reflexivity].
Qed.

Lemma frame_ignores_secondary_texture_witness :
  returned
    (frame
       (fields_of
          (set_environmentTexture2 Sample.skyCube
             (Sample.pass (Some SphereMap) (Some Sample.sky2D) None
                (Some Sample.camera))))) =
    returned
      (frame (Sample.pass (Some SphereMap) (Some Sample.sky2D) None (Some Sample.camera)))
  /\ calls_of
       (frame
          (fields_of
             (set_environmentTexture2 Sample.skyCube
                (Sample.pass (Some SphereMap) (Some Sample.sky2D) None
                   (Some Sample.camera))))) =
     calls_of
       (frame (Sample.pass (Some SphereMap) (Some Sample.sky2D) None (Some Sample.camera))).
Proof.
  apply (frame_ignores_secondary_texture
           (Sample.pass (Some SphereMap) (Some Sample.sky2D) None (Some Sample.camera))
           Sample.skyCube).
  discriminate.
Defined.

(** ** Programs *)

Lemma four_programs_eqb (a b c d : string) :
  NoDup [a; b; c; d] ->
  ((a =? b) = false /\ (a =? c) = false /\ (a =? d) = false)
  /\ ((b =? a) = false /\ (b =? c) = false /\ (b =? d) = false)
  /\ ((c =? a) = false /\ (c =? b) = false /\ (c =? d) = false)
  /\ ((d =? a) = false /\ (d =? b) = false /\ (d =? c) = false).
Proof.
  intros Hnodup.
  inversion Hnodup as [| ? ? Ha Hbcd]; subst.
  inversion Hbcd as [| ? ? Hb Hcd]; subst.
  inversion Hcd as [| ? ? Hc Hd]; subst.
  cbn in Ha, Hb, Hc.
  repeat split; apply String.eqb_neq; intros Heq; subst; tauto.
Qed.

(** X5.  For every projection type, the texture units [frame] binds textures
    to are the units [initialize] has set the samplers of the program of that
    type to read: unit 0, and for the polar map units 0 and 1. *)
Theorem samplers_read_the_units_bound (tk : Toolkit) (type : EnvironmentTextureType)
  (p : Pass) :
  four_programs p ->
  _environmenTextureType p = Some type ->
  ready p = true ->
  units_bound (calls_of (frame p)) =
    integers_uploaded (documented_program type p) (calls_of (initialize tk p))
  /\ units_bound (calls_of (frame p)) =
       match type with PolarMap => [0; 1]%Z | _ => [0]%Z end.
Proof.
  unfold four_programs. intros Hfour Htype Hready.
  destruct p as [texture texture2 type' cam [c] [e] [s] [o] tri empty emptyCube].
  cbn in Hfour, Htype. subst type'.
  destruct (four_programs_eqb c e s o Hfour)
    as [[Hce [Hcs Hco]] [[Hec [Hes Heo]] [[Hsc [Hse Hso]] [Hoc [Hoe Hos]]]]].
  destruct texture as [[[] ?]|], texture2 as [[[] ?]|], cam as [?|], type;
    cbn in Hready; try discriminate Hready;
    cbn; unfold Program_eqb; cbn;
    rewrite ?String.eqb_refl, ?Hce, ?Hcs, ?Hco, ?Hec, ?Hes, ?Heo,
      ?Hsc, ?Hse, ?Hso, ?Hoc, ?Hoe, ?Hos;
    split; reflexivity.
Qed.

Lemma samplers_read_the_units_bound_witness :
  units_bound
    (calls_of
       (frame (Sample.pass (Some PolarMap) (Some Sample.sky2D) (Some Sample.sky2D_back)
                 (Some Sample.camera)))) =
    integers_uploaded (mkProgram "PolarmapEnvironmentProgram")
      (calls_of
         (initialize Sample.failing_toolkit
            (Sample.pass (Some PolarMap) (Some Sample.sky2D) (Some Sample.sky2D_back)
               (Some Sample.camera))))
  /\ units_bound
       (calls_of
          (frame (Sample.pass (Some PolarMap) (Some Sample.sky2D)
                    (Some Sample.sky2D_back) (Some Sample.camera)))) = [0; 1]%Z.
Proof.
  apply (samplers_read_the_units_bound Sample.failing_toolkit PolarMap
           (Sample.pass (Some PolarMap) (Some Sample.sky2D) (Some Sample.sky2D_back)
              (Some Sample.camera))).
  - unfold four_programs. simpl.
    repeat constructor; simpl; intuition discriminate.
  - reflexivity.
  - reflexivity.
Defined.

(** X6.  The program [frame] binds for a projection type is one that
    [initialize] has linked from the fragment shader as compiled with the
    text of that type in place of [PROJECTION_TYPE]. *)
Theorem frame_uses_variant_of_its_type (tk : Toolkit) (type : EnvironmentTextureType)
  (p : Pass) (q : Program) :
  _environmenTextureType p = Some type ->
  In (ProgramBind q) (calls_of (frame p)) ->
  In (q, Some (projection_macro type))
    (linked_variants (mkShader FRAGMENT_SHADER "glyph.frag") None None
       (calls_of (initialize tk p))).
Proof.
  intros Htype Hbind.
  by_fields p; cbn in Htype; inversion Htype; subst; cbn in Hbind |- *;
    repeat (destruct Hbind as [Hbind | Hbind];
            [first [discriminate Hbind | injection Hbind as <-; tauto] |]);
    destruct Hbind.
Qed.

Lemma frame_uses_variant_of_its_type_witness :
  In (mkProgram "EquimapEnvironmentProgram", Some "EQUI_MAP")
    (linked_variants (mkShader FRAGMENT_SHADER "glyph.frag") None None
       (calls_of
          (initialize Sample.failing_toolkit
             (Sample.pass (Some EquirectangularMap) (Some Sample.sky2D) None
                (Some Sample.camera))))).
Proof.
  apply (frame_uses_variant_of_its_type Sample.failing_toolkit EquirectangularMap
           (Sample.pass (Some EquirectangularMap) (Some Sample.sky2D) None
              (Some Sample.camera))
           (mkProgram "EquimapEnvironmentProgram")).
  - reflexivity.
  - simpl. tauto.
Defined.

(** Each of the four programs is linked once, from its own variant. *)
Lemma initialize_links_four_variants (tk : Toolkit) (p : Pass) :
  linked_variants (mkShader FRAGMENT_SHADER "glyph.frag") None None
    (calls_of (initialize tk p)) =
  map (fun type => (documented_program type p, Some (projection_macro type)))
    [CubeMap; EquirectangularMap; SphereMap; PolarMap].
Proof.
  reflexivity.
Qed.

(** ** Bindings *)

(** X7.  In [initialize] every uniform upload goes to the program in use at
    that point, and when it returns no program is in use and no geometry
    bound, as before it. *)
Theorem initialize_uploads_to_program_in_use (tk : Toolkit) (p : Pass) :
  disciplined nothing_bound (calls_of (initialize tk p)) = true
  /\ bindings_after nothing_bound (calls_of (initialize tk p)) = nothing_bound.
Proof.
  destruct p as [? ? ? ? [c] [e] [s] [o] ? ? ?].
  cbn. unfold Program_eqb. cbn. rewrite !String.eqb_refl.
  split; reflexivity.
Qed.

(** X8.  Whatever is bound when [frame] is entered, its upload goes to the
    program it has put in use and its draw takes the triangle it has bound
    with that program in use.  When it returns, no program is in use, and the
    triangle is still bound: [frame] never unbinds it.  When it throws, the
    bindings are as they were. *)
Theorem frame_bindings (p : Pass) (b : Bindings) :
  disciplined b (calls_of (frame p)) = true
  /\ bindings_after b (calls_of (frame p)) =
       (if ready p then mkBindings None (Some (_ndcTriangle p)) else b)
  /\ (forall g : Geometry, ~ In (GeometryUnbind g) (calls_of (frame p))).
Proof.
  destruct b as [inuse bound].
  by_fields p; cbn; unfold Program_eqb;
    rewrite ?String.eqb_refl, ?Geometry_eqb_refl;
    (repeat split; try reflexivity);
    intros g Hin; cbn in Hin;
    repeat (destruct Hin as [Hin | Hin]; [discriminate Hin |]); destruct Hin.
Qed.

(** ** Textures *)

Lemma frame_binds_textures_held (p : Pass) (t : Texture) :
  In t (textures_bound (calls_of (frame p))) -> In t (textures_held p).
Proof.
  by_fields p; cbn; tauto.
Qed.

Lemma invoke_binds_textures_held (m : Member) (p : Pass) (t : Texture) :
  In t (textures_bound (calls_of (invoke m p))) -> In t (textures_held p).
Proof.
  destruct m; try (cbn; tauto).
  apply frame_binds_textures_held.
Qed.

Lemma textures_held_after (m : Member) (p : Pass) (t : Texture) :
  In t (textures_held (fields_of (invoke m p))) ->
  In t (textures_held p) \/ In t (textures_given [m]).
Proof.
  destruct m; try (left; assumption).
  - rewrite frame_keeps_fields. tauto.
  - destruct p as [[?|] [?|] ? ? ? ? ? ? ? ? ?]; cbn; tauto.
  - destruct p as [[?|] [?|] ? ? ? ? ? ? ? ? ?]; cbn; tauto.
Qed.

Lemma textures_given_cons (m : Member) (ms : list Member) :
  textures_given (m :: ms) = (textures_given [m] ++ textures_given ms)%list.
Proof.
  unfold textures_given. simpl. rewrite app_nil_r. reflexivity.
Qed.

(** X9.  Under any sequence of invocations of its members, a texture the pass
    binds is one the host has handed to it: one its two texture fields held
    to begin with, or one given to a setter.  The placeholder textures the
    pass creates for itself are bound only if the host hands them back. *)
Theorem binds_only_textures_given (ms : list Member) (p : Pass) (t : Texture) :
  In t (textures_bound (snd (run ms p))) ->
  In t (textures_held p) \/ In t (textures_given ms).
Proof.
  revert p. induction ms as [| m ms IH]; intros p Hin.
  - destruct Hin.
  - simpl in Hin.
    specialize (IH (fields_of (invoke m p))).
    destruct (run ms (fields_of (invoke m p))) as [p' calls]. simpl in Hin, IH.
    unfold textures_bound in Hin. rewrite flat_map_app in Hin.
    apply in_app_or in Hin. destruct Hin as [Hnow | Hlater].
    + left. apply (invoke_binds_textures_held m p t Hnow).
    + rewrite textures_given_cons.
      destruct (IH Hlater) as [Hheld | Hgiven].
      * destruct (textures_held_after m p t Hheld) as [H | H].
        -- left. exact H.
        -- right. apply in_or_app. left. exact H.
      * right. apply in_or_app. right. exact Hgiven.
Qed.

Lemma binds_only_textures_given_witness :
  In Sample.sky2D (textures_held (constructor 0))
  \/ In Sample.sky2D
       (textures_given
          [SetCamera Sample.camera; SetEnvironmentTexture Sample.sky2D;
           SetEnvironmentTextureType SphereMap; Frame]).
Proof.
  apply (binds_only_textures_given
           [SetCamera Sample.camera; SetEnvironmentTexture Sample.sky2D;
            SetEnvironmentTextureType SphereMap; Frame] (constructor 0) Sample.sky2D).
  simpl. left. reflexivity.
Defined.

(** ** Resources *)

(** Membership in a list written out. *)
Ltac listed := cbn; repeat (first [left; reflexivity | right]).

(** Some member of a list written out, whichever fits what follows. *)
Ltac pick := (left; reflexivity) + (right; pick).

Lemma held_after_not_released (calls : list Call) (r : Resource) :
  (exists c, In c calls /\ acquires c = Some r) ->
  (forall c, In c calls -> releases c <> Some r) ->
  In r (held_after calls).
Proof.
  intros [c [Hc Hacq]] Hno.
  apply in_split in Hc. destruct Hc as [before [later ->]].
  apply held_after_acquired; [exact Hacq |].
  intros c' Hc'. apply Hno. apply in_or_app. right. right. exact Hc'.
Qed.

(** X10.  After [initialize] and [uninitialize], what the pass still holds is
    the screen-filling triangle, the two placeholder textures and the two
    shaders, and nothing else: the shaders, which no field keeps, are not
    released either. *)
Theorem held_after_uninitialize (tk : Toolkit) (p : Pass) (r : Resource) :
  In r (held_after (calls_of (initialize tk p) ++ calls_of (uninitialize p)))
  <-> In r [RGeometry (_ndcTriangle p);
            RTexture (_emptyTexture p);
            RTexture (_emptyCubemap p);
            RShader (mkShader VERTEX_SHADER "glyph.vert");
            RShader (mkShader FRAGMENT_SHADER "glyph.frag")].
Proof.
  split.
  - intros Hheld.
    unfold held_after in Hheld. rewrite held_from_app in Hheld.
    apply held_from_released in Hheld.
    + destruct Hheld as [Hheld Hkept].
      apply held_from_origin in Hheld.
      destruct Hheld as [[] | [c [Hc Hacq]]].
      cbn in Hc.
      repeat (destruct Hc as [<- | Hc];
              [cbn in Hacq;
               first [discriminate Hacq
                     | injection Hacq as <-;
                       first [solve [listed]
                             | exfalso;
                               match type of Hkept with
                               | context [RProgram ?q] =>
                                   apply (Hkept (ProgramUninitialize q));
                                   [solve [listed] | reflexivity]
                               end]] |]).
      destruct Hc.
    + intros c Hc. cbn in Hc.
      repeat (destruct Hc as [<- | Hc]; [reflexivity |]). destruct Hc.
  - intros Hin.
    apply held_after_not_released.
    + cbn in Hin.
      destruct Hin as [<- | [<- | [<- | [<- | [<- | []]]]]];
        eexists; (split; [cbn; pick | reflexivity]).
    + intros c Hc Hrel. cbn in Hc.
      repeat (destruct Hc as [<- | Hc];
              [cbn in Hrel;
               first [discriminate Hrel
                     | injection Hrel as <-; cbn in Hin; intuition discriminate] |]).
      destruct Hc.
Qed.

(** ** Order of assembly *)

Lemma all_assembled_step (a : Assembly) (p : Pass) (c : Call) :
  all_assembled a p = true -> all_assembled (assembly_step a c) p = true.
Proof.
  unfold all_assembled. rewrite !forallb_forall.
  intros Hall q Hq. specialize (Hall q Hq).
  apply andb_prop in Hall. destruct Hall as [Hall Hlinked].
  apply andb_prop in Hall. destruct Hall as [Hcreated Hlocated].
  destruct c; simpl;
    try match goal with
        | |- context [(?name =? "a_vertex")%string] =>
            destruct (name =? "a_vertex")%string; simpl
        end;
    unfold mentions in *; simpl;
    rewrite ?Hcreated, ?Hlocated, ?Hlinked, ?orb_true_r; reflexivity.
Qed.

Lemma all_assembled_after (calls : list Call) : forall (a : Assembly) (p : Pass),
  all_assembled a p = true -> all_assembled (assembly_after a calls) p = true.
Proof.
  induction calls as [| c calls IH]; intros a p Hall; simpl.
  - exact Hall.
  - apply IH. apply all_assembled_step. exact Hall.
Qed.

Lemma initialize_in_order (tk : Toolkit) (p : Pass) (a : Assembly) :
  assembled_in_order a (calls_of (initialize tk p)) = true
  /\ all_assembled (assembly_after a (calls_of (initialize tk p))) p = true.
Proof.
  destruct p as [? ? ? ? [c] [e] [s] [o] ? ? ?].
  cbn. unfold Program_eqb. cbn.
  rewrite ?String.eqb_refl. cbn. rewrite ?orb_true_r. cbn.
  split; reflexivity.
Qed.

Lemma frame_in_order (p : Pass) (a : Assembly) :
  all_assembled a p = true ->
  assembled_in_order a (calls_of (frame p)) = true.
Proof.
  unfold all_assembled. rewrite forallb_forall. intros Hall.
  assert (Hlinked : forall q, In q (programs_of p) -> mentions q (linked a) = true).
  { intros q Hq. specialize (Hall q Hq).
    apply andb_prop in Hall. apply Hall. }
  by_fields p; cbn in Hlinked |- *; try reflexivity;
    rewrite Hlinked; tauto.
Qed.

Lemma invoke_in_order (m : Member) (p : Pass) (a : Assembly) :
  all_assembled a p = true ->
  assembled_in_order a (calls_of (invoke m p)) = true
  /\ all_assembled (assembly_after a (calls_of (invoke m p)))
       (fields_of (invoke m p)) = true.
Proof.
  intros Hall.
  destruct m.
  - destruct (initialize_in_order tk p a) as [Horder Hthen].
    split; [exact Horder | exact Hthen].
  - split; [reflexivity |].
    apply (all_assembled_after (calls_of (invoke Uninitialize p)) a p Hall).
  - split; [reflexivity | exact Hall].
  - split; [apply frame_in_order; exact Hall |].
    simpl invoke. rewrite frame_keeps_fields.
    apply all_assembled_after. exact Hall.
  - split; [reflexivity | exact Hall].
  - split; [reflexivity | exact Hall].
  - split; [reflexivity | exact Hall].
  - split; [reflexivity | exact Hall].
Qed.

Lemma run_in_order (ms : list Member) : forall (p : Pass) (a : Assembly),
  all_assembled a p = true ->
  assembled_in_order a (snd (run ms p)) = true.
Proof.
  induction ms as [| m ms IH]; intros p a Hall; simpl.
  - reflexivity.
  - destruct (invoke_in_order m p a Hall) as [Hnow Hthen].
    specialize (IH (fields_of (invoke m p)) _ Hthen).
    destruct (run ms (fields_of (invoke m p))) as [p' calls]. simpl in IH |- *.
    rewrite assembled_in_order_app, Hnow, IH. reflexivity.
Qed.

(** X11.  Once [initialize] has run, whatever members the host invokes
    afterwards and in whatever order, every program is given its vertex
    attribute location after it was created, linked after that, and put in use
    only after it was linked.  A frame that goes through on a pass that was
    never initialized puts a program in use that was not linked. *)
Theorem programs_assembled_in_order (tk : Toolkit) (ms : list Member) (p : Pass) :
  assembled_in_order nothing_assembled (snd (run (Initialize tk :: ms) p)) = true
  /\ assembled_in_order nothing_assembled (calls_of (frame p)) = negb (ready p).
Proof.
  split.
  - rewrite run_cons. cbn [snd].
    destruct (initialize_in_order tk p nothing_assembled) as [Horder Hthen].
    rewrite assembled_in_order_app.
    change (calls_of (invoke (Initialize tk) p)) with (calls_of (initialize tk p)).
    change (fields_of (invoke (Initialize tk) p)) with p.
    rewrite Horder. apply (run_in_order ms p _ Hthen).
  - by_fields p; reflexivity.
Qed.

End PassExtras.

(** * Further properties of EyeTrackingRenderer *)
Module RendererExtras.
Import EyeTrackingRenderer Discipline EyeTrackingSetup.

Lemma renderer_run_cons (a : Arrival) (arrivals : list Arrival) (r : Renderer) :
  run (a :: arrivals) r =
    (fst (run arrivals (fields_of (arrive a r))),
     (calls_of (arrive a r) ++ snd (run arrivals (fields_of (arrive a r))))%list).
Proof.
  simpl. destruct (run arrivals (fields_of (arrive a r))). reflexivity.
Qed.

(** What an arrival makes of the renderer, by its kind. *)
Lemma arrive_frame (r : Renderer) :
  fields_of (arrive FrameRequested r) = r.
Proof.
  reflexivity.
Qed.

Lemma arrive_notification (a : Arrival) (r : Renderer) :
  is_frame_request a = false ->
  exists (stream : EyeTrackerDataStream) (message : string),
    arrive a r = Returns tt (stream_updated stream r) [ConsoleLog message].
Proof.
  destruct a as [| stream | stream]; intros Hnot; try discriminate Hnot;
    exists stream.
  - eexists. reflexivity.
  - simpl. destruct stream as [? [] ?]; eexists; reflexivity.
Qed.

(** X12.  However frames and notifications of the data stream follow one
    another, the renderer draws once for every frame asked for and writes one
    line on the console for every notification. *)
Theorem one_draw_per_frame_one_line_per_notification
  (arrivals : list Arrival) (r : Renderer) :
  count is_draw (snd (run arrivals r)) = length (filter is_frame_request arrivals)
  /\ count is_console_log (snd (run arrivals r)) =
       length (filter (fun a => negb (is_frame_request a)) arrivals).
Proof.
  revert r. induction arrivals as [| a arrivals IH]; intros r.
  - split; reflexivity.
  - rewrite renderer_run_cons. cbn [snd]. rewrite !count_app.
    destruct (IH (fields_of (arrive a r))) as [IHdraw IHlog].
    rewrite IHdraw, IHlog.
    destruct (is_frame_request a) eqn:Hkind.
    + destruct a; try discriminate Hkind. split; reflexivity.
    + destruct (arrive_notification a r Hkind) as (stream & message & ->).
      simpl filter. rewrite Hkind. split; reflexivity.
Qed.

Lemma onFrame_context (r : Renderer) (g : Capabilities) :
  context_after (calls_of (onFrame r)) g = mkCapabilities false true.
Proof.
  reflexivity.
Qed.

(** X13.  After any sequence of frames and notifications with at least one
    frame in it, face culling is off and the depth test on, whatever they were
    before; notifications alone leave the capabilities of the context as they
    were. *)
Theorem capabilities_after_run (arrivals : list Arrival) (r : Renderer)
  (g : Capabilities) :
  context_after (snd (run arrivals r)) g =
    (if existsb is_frame_request arrivals then mkCapabilities false true else g).
Proof.
  revert r g. induction arrivals as [| a arrivals IH]; intros r g.
  - reflexivity.
  - rewrite renderer_run_cons. cbn [snd]. rewrite context_after_app, IH.
    destruct (is_frame_request a) eqn:Hkind.
    + destruct a; try discriminate Hkind.
      simpl existsb. rewrite onFrame_context.
      destruct (existsb is_frame_request arrivals); reflexivity.
    + destruct (arrive_notification a r Hkind) as (stream & message & ->).
      simpl existsb. rewrite Hkind. reflexivity.
Qed.

Lemma onFrame_disciplined (r : Renderer) (b : Bindings) :
  uniform_program (_uViewProjection r) = _program r ->
  disciplined b (calls_of (onFrame r)) = true
  /\ bindings_after b (calls_of (onFrame r)) = nothing_bound.
Proof.
  intros Hlocation. cbn. rewrite Hlocation.
  unfold Program_eqb, Geometry_eqb.
  rewrite !String.eqb_refl, Z.eqb_refl. split; reflexivity.
Qed.

Lemma run_finds_bound (arrivals : list Arrival) (r : Renderer)
  (b : Bindings) :
  uniform_program (_uViewProjection r) = _program r ->
  disciplined b (snd (run arrivals r)) = true
  /\ bindings_after b (snd (run arrivals r)) =
       (if existsb is_frame_request arrivals then nothing_bound else b).
Proof.
  revert r b. induction arrivals as [| a arrivals IH]; intros r b Hlocation.
  - split; reflexivity.
  - rewrite renderer_run_cons. cbn [snd].
    rewrite disciplined_app, bindings_after_app.
    destruct (is_frame_request a) eqn:Hkind.
    + destruct a; try discriminate Hkind.
      simpl arrive. simpl existsb.
      destruct (onFrame_disciplined r b Hlocation) as [Hnow Hthen].
      rewrite Hnow, Hthen.
      destruct (IH (fields_of (onFrame r)) nothing_bound Hlocation) as [IH1 IH2].
      rewrite IH1, IH2.
      destruct (existsb is_frame_request arrivals); split; reflexivity.
    + destruct (arrive_notification a r Hkind) as (stream & message & ->).
      simpl existsb. rewrite Hkind.
      apply (IH (stream_updated stream r) b). exact Hlocation.
Qed.

(** X14.  With the uniform location of the view projection being one of the
    renderer's program, as [onInitialize] sets it, and whatever is bound to
    begin with: through any sequence of frames and notifications every upload
    goes to the program in use and every draw takes the cuboid bound with the
    program in use, and after a frame no program is in use and no geometry
    bound. *)
Theorem renderer_run_disciplined (arrivals : list Arrival) (r : Renderer)
  (b : Bindings) :
  uniform_program (_uViewProjection r) = _program r ->
  disciplined b (snd (run arrivals r)) = true
  /\ bindings_after b (snd (run arrivals r)) =
       (if existsb is_frame_request arrivals then nothing_bound else b).
Proof.
  apply run_finds_bound.
Qed.

Lemma renderer_run_disciplined_witness :
  disciplined nothing_bound
    (snd (run [DataUpdated (_eyeTrackerDataStream Sample.renderer); FrameRequested]
            Sample.renderer)) = true
  /\ bindings_after nothing_bound
       (snd (run [DataUpdated (_eyeTrackerDataStream Sample.renderer); FrameRequested]
               Sample.renderer)) = nothing_bound.
Proof.
  exact (renderer_run_disciplined
           [DataUpdated (_eyeTrackerDataStream Sample.renderer); FrameRequested]
           Sample.renderer nothing_bound eq_refl).
Defined.

(** ** onInitialize *)

(** X15.  [onInitialize] calls [connect()] on the data stream exactly once,
    and wherever it does, it has before subscribed the two callbacks and
    switched on each of the five data streams, and makes no call on the
    stream afterwards. *)
Theorem subscribed_before_connect (host : Host) :
  length (filter is_connect (setup_calls (onInitialize host))) = 1%nat
  /\ (forall before after : list SetupCall,
        setup_calls (onInitialize host) = (before ++ StreamConnect :: after)%list ->
        In (StreamOnDataUpdate onDataUpdate_callback) before
        /\ In (StreamOnStatusUpdate onStatusUpdate_callback) before
        /\ (forall flag : DataStreamFlag, In (StreamSetDataStream flag true) before)
        /\ existsb is_connect before = false
        /\ existsb on_stream after = false).
Proof.
  split; [reflexivity |].
  intros before after Hsplit. cbn in Hsplit.
  repeat (destruct before as [| c before]; cbn in Hsplit;
          [first [discriminate Hsplit
                 | injection Hsplit as <-;
                   repeat split; try (cbn; tauto); intros []; cbn; tauto]
          | first [discriminate Hsplit | injection Hsplit as <- Hsplit]]).
Qed.

Lemma arrive_in_order (x : Arrival) (r : Renderer) (a : Assembly) :
  mentions (_program r) (linked a) = true ->
  assembled_in_order a (calls_of (arrive x r)) = true
  /\ _program (fields_of (arrive x r)) = _program r
  /\ _uViewProjection (fields_of (arrive x r)) = _uViewProjection r.
Proof.
  intros Hlinked.
  destruct (is_frame_request x) eqn:Hkind.
  - destruct x; try discriminate Hkind.
    cbn. rewrite Hlinked. repeat split.
  - destruct (arrive_notification x r Hkind) as (stream & message & ->).
    repeat split.
Qed.

Lemma renderer_run_in_order (arrivals : list Arrival) :
  forall (r : Renderer) (a : Assembly),
    mentions (_program r) (linked a) = true ->
    assembled_in_order a (snd (run arrivals r)) = true.
Proof.
  induction arrivals as [| x arrivals IH]; intros r a Hlinked.
  - reflexivity.
  - rewrite renderer_run_cons. cbn [snd].
    destruct (arrive_in_order x r a Hlinked) as [Hnow [Hprogram _]].
    rewrite assembled_in_order_app, Hnow.
    apply IH. rewrite Hprogram.
    apply mentions_linked_after. exact Hlinked.
Qed.

Lemma located_before_link_app (calls1 calls2 : list Call) :
  forall linked : list Program,
    located_before_link linked calls1 = true ->
    existsb is_attribute calls2 = false ->
    located_before_link linked (calls1 ++ calls2) = true.
Proof.
  assert (Hnone : forall calls linked,
             existsb is_attribute calls = false ->
             located_before_link linked calls = true).
  { induction calls as [| c calls IH]; intros linked Hno; simpl in Hno |- *.
    - reflexivity.
    - apply orb_false_elim in Hno. destruct Hno as [Hc Hrest].
      destruct c; try discriminate Hc; apply IH; exact Hrest. }
  induction calls1 as [| c calls1 IH]; intros linked Hfirst Hno.
  - apply Hnone. exact Hno.
  - destruct c; simpl in Hfirst |- *; try (apply IH; assumption).
    apply andb_prop in Hfirst. destruct Hfirst as [Hc Hrest].
    rewrite Hc. apply IH; assumption.
Qed.

Lemma attributes_located_app (q : Program) (calls1 calls2 : list Call) :
  existsb is_attribute calls2 = false ->
  attributes_located q (calls1 ++ calls2) = attributes_located q calls1.
Proof.
  intros Hno. unfold attributes_located. rewrite flat_map_app.
  assert (Hnone : flat_map
            (fun c =>
               match c with
               | ProgramAttribute q' name _ => if Program_eqb q' q then [name] else []
               | _ => []
               end) calls2 = []).
  { induction calls2 as [| c calls2 IH]; simpl in Hno |- *.
    - reflexivity.
    - apply orb_false_elim in Hno. destruct Hno as [Hc Hrest].
      destruct c; try discriminate Hc; apply IH; exact Hrest. }
  rewrite Hnone. apply app_nil_r.
Qed.

(** Frames and notifications give no attribute location. *)
Lemma run_gives_no_attribute (arrivals : list Arrival) : forall r : Renderer,
  existsb is_attribute (snd (run arrivals r)) = false.
Proof.
  induction arrivals as [| x arrivals IH]; intros r.
  - reflexivity.
  - rewrite renderer_run_cons. cbn [snd]. rewrite existsb_app, IH.
    destruct (is_frame_request x) eqn:Hkind.
    + destruct x; try discriminate Hkind. reflexivity.
    + destruct (arrive_notification x r Hkind) as (stream & message & ->).
      reflexivity.
Qed.

(** X16.  [onInitialize] and then any sequence of frames and notifications:
    the program is given the locations of its two attributes, [a_vertex] and
    [a_texCoord], after it is created and before it is linked, and no location
    once it is linked; it is in use only once linked; every upload goes to the
    program in use, and every draw takes the cuboid bound with the program in
    use. *)
Theorem initialized_renderer_in_order (host : Host) (arrivals : list Arrival) :
  let calls :=
    (toolkit_calls (setup_calls (onInitialize host))
     ++ snd (run arrivals (renderer (onInitialize host))))%list in
  assembled_in_order nothing_assembled calls = true
  /\ disciplined nothing_bound calls = true
  /\ located_before_link [] calls = true
  /\ attributes_located (_program (renderer (onInitialize host))) calls =
       ["a_vertex"; "a_texCoord"].
Proof.
  cbv zeta. split; [| split; [| split]].
  - rewrite assembled_in_order_app.
    apply andb_true_intro. split; [reflexivity |].
    apply renderer_run_in_order. reflexivity.
  - rewrite disciplined_app.
    apply andb_true_intro. split; [reflexivity |].
    apply run_finds_bound. reflexivity.
  - apply located_before_link_app; [reflexivity |].
    apply run_gives_no_attribute.
  - rewrite attributes_located_app; [reflexivity |].
    apply run_gives_no_attribute.
Qed.

End RendererExtras.
